(** * forum_api.py: forum registry, request dispatch and lookups

    A shallow embedding of [scripts/forum_api.py], the command-line client
    for the LessWrong, EA Forum and Alignment Forum GraphQL endpoints, and
    the properties of its forum resolver, request dispatcher, token store,
    post lookup, date filter and tag search.

    Conventions of the embedding.
    - A Python [str] is a Rocq [string]; a character is read as the code
      point of the same number, so the model is exact for strings of code
      points below 256 (case mapping and white space follow Unicode there).
    - Python values that travel through JSON are the type [value]; a [dict]
      is an association list in insertion order with Python's update rule.
    - An exception is a [Raise] result; functions that read the config file
      or post to the network run in the state monad [M] over [world].
    - [json.load]/[json.dump] are taken as inverse of each other: the config
      file holds the parsed value. *)

From Stdlib Require Import String Ascii List ZArith NArith Bool Lia.
Import ListNotations.

Set Warnings "-register-all".

Open Scope Z_scope.
Open Scope list_scope.
Open Scope string_scope.

(** ** Python strings *)

(** [str.lower] on one character: A-Z, and the Latin-1 capitals
    U+00C0..U+00DE without the multiplication sign U+00D7. *)
Definition lower_char (c : ascii) : ascii :=
  let n := N_of_ascii c in
  if ((65 <=? n) && (n <=? 90))%N
     || ((192 <=? n) && (n <=? 222) && negb (n =? 215))%N
  then ascii_of_N (n + 32)
  else c.

Fixpoint lower (s : string) : string :=
  match s with
  | EmptyString => EmptyString
  | String c s' => String (lower_char c) (lower s')
  end.

(** White space as [str.strip] sees it: TAB..CR, FS..US, space, NEL, NBSP. *)
Definition is_space (c : ascii) : bool :=
  let n := N_of_ascii c in
  (((9 <=? n) && (n <=? 13)) || ((28 <=? n) && (n <=? 32))
   || (n =? 133) || (n =? 160))%N.

Fixpoint lstrip (s : string) : string :=
  match s with
  | EmptyString => EmptyString
  | String c s' => if is_space c then lstrip s' else s
  end.

Fixpoint rstrip (s : string) : string :=
  match s with
  | EmptyString => EmptyString
  | String c s' =>
      let r := rstrip s' in
      if is_space c && (r =? "") then "" else String c r
  end.

Definition strip (s : string) : string := rstrip (lstrip s).

(** [sub in s] for two strings. *)
Fixpoint str_contains (sub s : string) : bool :=
  if prefix sub s then true
  else match s with
       | EmptyString => false
       | String _ s' => str_contains sub s'
       end.

(** [s.split(sep)] for a separator of one character. *)
Fixpoint split_char (sep : ascii) (s : string) : list string :=
  match s with
  | EmptyString => [""]
  | String c s' =>
      if Ascii.eqb c sep then "" :: split_char sep s'
      else match split_char sep s' with
           | h :: t => String c h :: t
           | [] => [String c ""]
           end
  end.

(** [s.replace(old, new)] for [old] of one character. *)
Fixpoint replace_char (old : ascii) (new : string) (s : string) : string :=
  match s with
  | EmptyString => EmptyString
  | String c s' =>
      if Ascii.eqb c old then new ++ replace_char old new s'
      else String c (replace_char old new s')
  end.

Definition is_alnum (c : ascii) : bool :=
  let n := N_of_ascii c in
  (((97 <=? n) && (n <=? 122)) || ((65 <=? n) && (n <=? 90))
   || ((48 <=? n) && (n <=? 57)))%N.

Fixpoint all_alnum (s : string) : bool :=
  match s with
  | EmptyString => true
  | String c s' => is_alnum c && all_alnum s'
  end.

(** The longest run of [[a-zA-Z0-9]] at the head of [s], and what follows. *)
Fixpoint span_alnum (s : string) : string * string :=
  match s with
  | EmptyString => ("", "")
  | String c s' =>
      if is_alnum c
      then let '(run, rest) := span_alnum s' in (String c run, rest)
      else ("", s)
  end.

Fixpoint drop_prefix (p s : string) : option string :=
  match p, s with
  | EmptyString, _ => Some s
  | String a p', String b s' => if Ascii.eqb a b then drop_prefix p' s' else None
  | String _ _, EmptyString => None
  end.

(** ** Python values and exceptions *)

Inductive value : Type :=
  | JNull                                   (* None *)
  | JBool (b : bool)
  | JNum (n : Z)
  | JStr (s : string)
  | JArr (items : list value)
  | JObj (fields : list (string * value)).

Definition dict : Type := list (string * value).

Inductive exn : Type :=
  | ValueError (msg : string)
  | HTTPError (status : Z)
  | GraphQLErrors (errors : value)   (* Exception(f"GraphQL errors: {errors}") *)
  | Exception_ (msg : string)
  | KeyError (key : string)
  | TypeError
  | AttributeError
  | JSONDecodeError.

Inductive result (A : Type) : Type :=
  | Ok (a : A)
  | Raise (e : exn).
Arguments Ok {A} a.
Arguments Raise {A} e.

Definition rbind {A B} (r : result A) (k : A -> result B) : result B :=
  match r with
  | Ok a => k a
  | Raise e => Raise e
  end.

Definition is_raise {A} (r : result A) : bool :=
  match r with Ok _ => false | Raise _ => true end.

(** Truth value of a Python object. *)
Definition truthy (v : value) : bool :=
  match v with
  | JNull => false
  | JBool b => b
  | JNum n => negb (n =? 0)%Z
  | JStr s => negb (s =? "")
  | JArr l => match l with [] => false | _ => true end
  | JObj d => match d with [] => false | _ => true end
  end.

Fixpoint dict_get (k : string) (d : dict) : option value :=
  match d with
  | [] => None
  | (k', v) :: d' => if k' =? k then Some v else dict_get k d'
  end.

Definition dict_mem (k : string) (d : dict) : bool :=
  match dict_get k d with Some _ => true | None => false end.

(** [d[k] = v]: an existing key keeps its place, a new one goes last. *)
Fixpoint dict_set (k : string) (v : value) (d : dict) : dict :=
  match d with
  | [] => [(k, v)]
  | (k', v') :: d' =>
      if k' =? k then (k, v) :: d' else (k', v') :: dict_set k v d'
  end.

Definition str_eq_value (k : string) (v : value) : bool :=
  match v with JStr s => s =? k | _ => false end.

(** [k in v] for a string [k]. *)
Definition py_contains (k : string) (v : value) : result bool :=
  match v with
  | JObj d => Ok (dict_mem k d)
  | JArr l => Ok (existsb (str_eq_value k) l)
  | JStr s => Ok (str_contains k s)
  | _ => Raise TypeError
  end.

(** [v[k]] for a string [k]. *)
Definition py_getitem (k : string) (v : value) : result value :=
  match v with
  | JObj d => match dict_get k d with
              | Some x => Ok x
              | None => Raise (KeyError k)
              end
  | _ => Raise TypeError
  end.

(** [v[k] = x] for a string [k]. *)
Definition py_setitem (k : string) (x : value) (v : value) : result value :=
  match v with
  | JObj d => Ok (JObj (dict_set k x d))
  | _ => Raise TypeError
  end.

(** [v.get(k, default)]; only a dict has [get]. *)
Definition py_get (k : string) (default : value) (v : value) : result value :=
  match v with
  | JObj d => match dict_get k d with
              | Some x => Ok x
              | None => Ok default
              end
  | _ => Raise AttributeError
  end.

(** [v[k1][k2] = x]: the inner dict is updated in place, so [v] sees it. *)
Definition py_setitem2 (k1 k2 : string) (x : value) (v : value)
  : result value :=
  rbind (py_getitem k1 v) (fun inner =>
  rbind (py_setitem k2 x inner) (fun inner' =>
  py_setitem k1 inner' v)).

Fixpoint chars_of (s : string) : list value :=
  match s with
  | EmptyString => []
  | String c s' => JStr (String c "") :: chars_of s'
  end.

(** The items a [for] loop or a comprehension sees. *)
Definition py_iter (v : value) : result (list value) :=
  match v with
  | JArr l => Ok l
  | JObj d => Ok (map (fun kv => JStr (fst kv)) d)
  | JStr s => Ok (chars_of s)
  | _ => Raise TypeError
  end.

(** [seq[:limit]] on a list. *)
Definition slice_to {A} (limit : Z) (l : list A) : list A :=
  if (0 <=? limit)%Z then firstn (Z.to_nat limit) l
  else firstn (Z.to_nat (Z.of_nat (List.length l) + limit)) l.

(** ** The forum registry *)

Record forum_config : Type := {
  name : string;
  url : string;
  base_url : string;
  aliases : list string
}.

Definition FORUMS : list (string * forum_config) :=
  [ ("lesswrong",
     {| name := "LessWrong";
        url := "https://www.lesswrong.com/graphql";
        base_url := "https://www.lesswrong.com";
        aliases := ["lw"; "less-wrong"] |});
    ("eaforum",
     {| name := "EA Forum";
        url := "https://forum.effectivealtruism.org/graphql";
        base_url := "https://forum.effectivealtruism.org";
        aliases := ["ea"; "effective-altruism"; "ea-forum"] |});
    ("alignmentforum",
     {| name := "Alignment Forum";
        url := "https://www.alignmentforum.org/graphql";
        base_url := "https://www.alignmentforum.org";
        aliases := ["af"; "alignment"; "alignment-forum"] |}) ].

Definition forum_keys : list string := map fst FORUMS.

Definition forums_get (k : string) : option forum_config :=
  option_map snd (find (fun kc => fst kc =? k) FORUMS).

Definition resolve_forum (forum_input : string) : result string :=
  let forum_input := strip (lower forum_input) in
  (* Direct match *)
  if existsb (String.eqb forum_input) forum_keys then Ok forum_input
  else
    (* Check aliases *)
    match find (fun kc => existsb (String.eqb forum_input) (aliases (snd kc)))
               FORUMS with
    | Some (key, _) => Ok key
    | None =>
        Raise (ValueError ("Unknown forum: " ++ forum_input
                           ++ ". Valid options: " ++ String.concat ", " forum_keys))
    end.

Definition get_forum_url (forum : string) : result string :=
  rbind (resolve_forum forum) (fun forum_key =>
  match forums_get forum_key with
  | Some c => Ok (url c)
  | None => Raise (KeyError forum_key)
  end).

Definition get_forum_base_url (forum : string) : result string :=
  rbind (resolve_forum forum) (fun forum_key =>
  match forums_get forum_key with
  | Some c => Ok (base_url c)
  | None => Raise (KeyError forum_key)
  end).

(** ** Regular expressions of [get_post_by_slug] *)

Definition dquote : string := String "034"%char EmptyString.
Definition newline : string := String "010"%char EmptyString.

(** One attempt of [/posts/([a-zA-Z0-9]+)/] at the head of [s].  The class
    excludes the slash, so the greedy run is the only one that the closing
    slash can follow: backtracking finds nothing more. *)
Definition match_posts_at (s : string) : option string :=
  match drop_prefix "/posts/" s with
  | Some rest =>
      match span_alnum rest with
      | (String c run, String d _) =>
          if Ascii.eqb d "/" then Some (String c run) else None
      | _ => None
      end
  | None => None
  end.

(** [re.search(r'/posts/([a-zA-Z0-9]+)/', s)], group 1 of the leftmost match. *)
Fixpoint re_search_posts_id (s : string) : option string :=
  match match_posts_at s with
  | Some id => Some id
  | None =>
      match s with
      | EmptyString => None
      | String _ s' => re_search_posts_id s'
      end
  end.

(** [re.match(r'^[a-zA-Z0-9]{17}$', s)]: seventeen characters of the class,
    then [$], which holds at the end of the string and also just before a
    line feed that ends the string. *)
Definition re_match_post_id (s : string) : bool :=
  let head := substring 0 17 s in
  let tail := substring 17 (String.length s - 17) s in
  (String.length head =? 17)%nat && all_alnum head
  && ((tail =? "") || (tail =? newline)).

(** ** GraphQL documents *)

Definition GetPostById_query : string :=
  "
        query GetPostById($documentId: String!) {
          post(input: { selector: { documentId: $documentId } }) {
            result {
              _id
              title
              slug
              pageUrl
              postedAt
              baseScore
              voteCount
              commentCount
              user {
                displayName
                slug
              }
              contents {
                markdown
              }
            }
          }
        }
        ".

Definition SearchBySlug_query : string :=
  "
    query SearchBySlug($limit: Int) {
      posts(input: {
        terms: {
          limit: $limit
        }
      }) {
        results {
          _id
          title
          slug
          pageUrl
          postedAt
          baseScore
          voteCount
          commentCount
          user {
            displayName
            slug
          }
          contents {
            markdown
          }
        }
      }
    }
    ".

Definition CreatePost_query : string :=
  "
    mutation CreatePost($data: CreatePostDataInput!) {
      createPost(data: $data) {
        data {
          _id
          title
          slug
          pageUrl
          draft
        }
      }
    }
    ".

Definition GetUserPosts_query : string :=
  "
    query GetUserPosts($userId: String!, $limit: Int) {
      posts(input: {
        terms: {
          view: " ++ dquote ++ "userPosts" ++ dquote ++ ",
          userId: $userId,
          limit: $limit
        }
      }) {
        results {
          _id
          title
          slug
          pageUrl
          postedAt
          baseScore
          voteCount
          commentCount
          contents {
            markdown
          }
        }
      }
    }
    ".

Definition GetUserComments_query : string :=
  "
    query GetUserComments($userId: String!, $limit: Int) {
      comments(input: {
        terms: {
          view: " ++ dquote ++ "profileComments" ++ dquote ++ ",
          userId: $userId,
          limit: $limit
        }
      }) {
        results {
          _id
          postedAt
          pageUrl
          baseScore
          voteCount
          post {
            _id
            title
            slug
          }
          contents {
            markdown
            plaintextDescription
          }
        }
      }
    }
    ".

Definition SearchTags_query : string :=
  "
    query SearchTags($limit: Int) {
      tags(input: {
        terms: {
          view: " ++ dquote ++ "allTagsAlphabetical" ++ dquote ++ ",
          limit: $limit
        }
      }) {
        results {
          _id
          name
          slug
          postCount
        }
      }
    }
    ".

Definition GetTagPosts_query : string :=
  "
    query GetTagPosts($tagId: String!, $limit: Int) {
      posts(input: {
        terms: {
          view: " ++ dquote ++ "tagRelevance" ++ dquote ++ ",
          tagId: $tagId,
          limit: $limit
        }
      }) {
        results {
          _id
          title
          slug
          pageUrl
          postedAt
          baseScore
          voteCount
          commentCount
          user {
            displayName
            slug
          }
          contents {
            markdown
          }
        }
      }
    }
    ".

(** ** The world: config file and network *)

(** [config.json]: absent, not JSON, or the value [json.load] gives. *)
Inductive file_state : Type :=
  | NoFile
  | BadJson
  | JsonFile (content : value).

Record request : Type := {
  req_url : string;
  req_json : value;
  req_headers : list (string * string);
  req_cookies : list (string * value)
}.

Record response : Type := {
  status_code : Z;
  body : option value        (* [None]: the body is not JSON *)
}.

Record world : Type := {
  config_file : file_state;
  sent : list request        (* the POSTs issued so far, oldest first *)
}.

Definition M (A : Type) : Type := world -> result A * world.

Definition ret {A} (a : A) : M A := fun w => (Ok a, w).

Definition raise {A} (e : exn) : M A := fun w => (Raise e, w).

Definition bind {A B} (m : M A) (k : A -> M B) : M B :=
  fun w =>
    match m w with
    | (Ok a, w') => k a w'
    | (Raise e, w') => (Raise e, w')
    end.

Definition lift {A} (r : result A) : M A := fun w => (r, w).

Notation "x <- m ;; k" := (bind m (fun x => k))
  (at level 61, m at next level, right associativity).
Notation "m ;;; k" := (bind m (fun _ => k))
  (at level 61, right associativity).

(** The config [load_config] gives when there is no file. *)
Definition default_config : dict :=
  [("subscriptions", JArr []);
   ("digest_days", JNum 7);
   ("output_dir", JStr "digests")].

Definition load_config : M value :=
  fun w =>
    match config_file w with
    | NoFile => (Ok (JObj default_config), w)
    | BadJson => (Raise JSONDecodeError, w)
    | JsonFile j => (Ok j, w)
    end.

(** [json.dump(config, open(CONFIG_FILE, "w"))] *)
Definition write_config (config : value) : M unit :=
  fun w => (Ok tt, {| config_file := JsonFile config; sent := sent w |}).

Definition get_auth_token (forum : string) : M value :=
  config <- load_config ;;
  auth <- lift (py_get "auth" (JObj []) config) ;;
  forum_key <- lift (resolve_forum forum) ;;
  (* Map alignmentforum to lesswrong token (same account) *)
  let forum_key :=
    if forum_key =? "alignmentforum" then "lesswrong" else forum_key in
  lift (py_get forum_key JNull auth).

Definition save_auth_token (forum : string) (token : value) : M string :=
  config <- load_config ;;
  has_auth <- lift (py_contains "auth" config) ;;
  config <- (if negb has_auth
             then lift (py_setitem "auth" (JObj []) config)
             else ret config) ;;
  forum_key <- lift (resolve_forum forum) ;;
  (* Map alignmentforum to lesswrong (same account) *)
  let forum_key :=
    if forum_key =? "alignmentforum" then "lesswrong" else forum_key in
  config <- lift (py_setitem2 "auth" forum_key token config) ;;
  write_config config ;;;
  ret forum_key.

(** [Response.raise_for_status] of the requests library: [HTTPError] for a
    status of 400 to 599. *)
Definition raise_for_status (r : response) : result unit :=
  if (400 <=? status_code r)%Z && (status_code r <? 600)%Z
  then Raise (HTTPError (status_code r))
  else Ok tt.

(** [Response.json] *)
Definition response_json (r : response) : result value :=
  match body r with
  | Some j => Ok j
  | None => Raise JSONDecodeError
  end.

(** ** Datetimes *)

(** A [datetime]: microseconds on its time line, and whether it carries an
    offset (then the time line is UTC). *)
Record datetime : Type := {
  dt_micros : Z;
  dt_aware : bool
}.

(** [a >= b]; naive against aware is a [TypeError]. *)
Definition dt_ge (a b : datetime) : result bool :=
  if Bool.eqb (dt_aware a) (dt_aware b)
  then Ok (dt_micros b <=? dt_micros a)%Z
  else Raise TypeError.

(** [v.replace(old, new)]; only a string has it here. *)
Definition py_str_replace (old : ascii) (new : string) (v : value)
  : result string :=
  match v with
  | JStr s => Ok (replace_char old new s)
  | _ => Raise AttributeError
  end.

(** [v.lower()] *)
Definition py_str_lower (v : value) : result string :=
  match v with
  | JStr s => Ok (lower s)
  | _ => Raise AttributeError
  end.

(** A list comprehension [[x for x in l if keep x]] whose test may raise. *)
Fixpoint filter_r (keep : value -> result bool) (l : list value)
  : result (list value) :=
  match l with
  | [] => Ok []
  | x :: l' =>
      rbind (keep x) (fun b =>
      rbind (filter_r keep l') (fun r =>
      Ok (if b then x :: r else r)))
  end.

(** [for post in posts: if post.get(key) == want: return post] *)
Fixpoint find_r (test : value -> result bool) (l : list value)
  : result (option value) :=
  match l with
  | [] => Ok None
  | x :: l' =>
      rbind (test x) (fun b =>
      if b then Ok (Some x) else find_r test l')
  end.

(** ** The client *)

Section Client.

(** What the forum's server answers to a POST. *)
Variable server : request -> response.

(** [datetime.fromisoformat]; [None] is its [ValueError]. *)
Variable fromisoformat : string -> option datetime.

(** [requests.post(url, json=..., headers=..., cookies=...)] *)
Definition requests_post (url : string) (json : value)
           (headers : list (string * string))
           (cookies : list (string * value)) : M response :=
  fun w =>
    let req := {| req_url := url; req_json := json;
                  req_headers := headers; req_cookies := cookies |} in
    (Ok (server req),
     {| config_file := config_file w; sent := (sent w ++ [req])%list |}).

Definition graphql_query (query : string) (variables : value)
           (forum : string) : M value :=
  url <- lift (get_forum_url forum) ;;
  let payload := JObj [("query", JStr query)] in
  payload <- (if truthy variables
              then lift (py_setitem "variables" variables payload)
              else ret payload) ;;
  response <- requests_post url payload
                [("Content-Type", "application/json")] [] ;;
  lift (raise_for_status response) ;;;
  data <- lift (response_json response) ;;
  has_errors <- lift (py_contains "errors" data) ;;
  if has_errors : bool
  then errors <- lift (py_getitem "errors" data) ;;
       raise (GraphQLErrors errors)
  else lift (py_get "data" (JObj []) data).

Definition graphql_query_authenticated (query : string) (variables : value)
           (forum : string) : M value :=
  token <- get_auth_token forum ;;
  if negb (truthy token)
  then raise (Exception_ ("No auth token configured for " ++ forum ++ ". "
               ++ "See 'set-token' command or add token to config.json."))
  else
    url <- lift (get_forum_url forum) ;;
    let payload := JObj [("query", JStr query)] in
    payload <- (if truthy variables
                then lift (py_setitem "variables" variables payload)
                else ret payload) ;;
    (* Use cookie-based auth (Meteor loginToken) *)
    response <- requests_post url payload
                  [("Content-Type", "application/json")]
                  [("loginToken", token)] ;;
    lift (raise_for_status response) ;;;
    data <- lift (response_json response) ;;
    has_errors <- lift (py_contains "errors" data) ;;
    if has_errors : bool
    then errors <- lift (py_getitem "errors" data) ;;
         raise (GraphQLErrors errors)
    else lift (py_get "data" (JObj []) data).

(** [post.get("slug") == slug] *)
Definition slug_is (slug : string) (post : value) : result bool :=
  rbind (py_get "slug" JNull post) (fun s => Ok (str_eq_value slug s)).

Definition get_post_by_slug (identifier : string) (forum : string)
  : M value :=
  (* Extract ID from URL if provided *)
  let url_match := re_search_posts_id identifier in
  let post_id :=
    match url_match with
    | Some id => JStr id
    | None =>
        (* Check if identifier looks like a post ID (alphanumeric, 17 chars) *)
        if re_match_post_id identifier then JStr identifier else JNull
    end in
  (* Query by ID if we have one *)
  found <- (if truthy post_id
            then
              data <- graphql_query GetPostById_query
                        (JObj [("documentId", post_id)]) forum ;;
              post_ <- lift (py_get "post" (JObj []) data) ;;
              post <- lift (py_get "result" JNull post_) ;;
              ret (if truthy post then Some post else None)
            else ret None) ;;
  match found with
  | Some post => ret post
  | None =>
      (* Otherwise, search by slug *)
      let slug := last (split_char "/" identifier) "" in
      data <- graphql_query SearchBySlug_query
                (JObj [("limit", JNum 1000)]) forum ;;
      posts_ <- lift (py_get "posts" (JObj []) data) ;;
      posts <- lift (py_get "results" (JArr []) posts_) ;;
      items <- lift (py_iter posts) ;;
      (* Find exact slug match *)
      hit <- lift (find_r (slug_is slug) items) ;;
      match hit with
      | Some post => ret post
      | None => raise (Exception_ ("Post not found: " ++ identifier))
      end
  end.

Definition create_draft_post (title contents_markdown : value)
           (forum : string) (url question : value) : M value :=
  let variables :=
    JObj [("data",
           JObj [("title", title);
                 ("contents",
                  JObj [("originalContents",
                         JObj [("type", JStr "markdown");
                               ("data", contents_markdown)])]);
                 ("draft", JBool true);
                 ("submitToFrontpage", JBool true)])] in
  variables <- (if truthy url
                then lift (py_setitem2 "data" "url" url variables)
                else ret variables) ;;
  variables <- (if truthy question
                then lift (py_setitem2 "data" "question" (JBool true)
                                       variables)
                else ret variables) ;;
  data <- graphql_query_authenticated CreatePost_query variables forum ;;
  created <- lift (py_get "createPost" (JObj []) data) ;;
  lift (py_get "data" JNull created).

(** [datetime.fromisoformat(item["postedAt"].replace("Z", "+00:00"))
     >= since_date] *)
Definition posted_since (since_date : datetime) (item : value)
  : result bool :=
  rbind (py_getitem "postedAt" item) (fun postedAt =>
  rbind (py_str_replace "Z" "+00:00" postedAt) (fun iso =>
  match fromisoformat iso with
  | Some d => dt_ge d since_date
  | None => Raise (ValueError "Invalid isoformat string")
  end)).

Definition get_user_posts (user_id : value) (since_date : option datetime)
           (limit : value) (forum : string) : M value :=
  data <- graphql_query GetUserPosts_query
            (JObj [("userId", user_id); ("limit", limit)]) forum ;;
  posts_ <- lift (py_get "posts" (JObj []) data) ;;
  posts <- lift (py_get "results" (JArr []) posts_) ;;
  (* Filter by date if specified *)
  match since_date with
  | Some since_date =>
      items <- lift (py_iter posts) ;;
      kept <- lift (filter_r (posted_since since_date) items) ;;
      ret (JArr kept)
  | None => ret posts
  end.

Definition get_user_comments (user_id : value)
           (since_date : option datetime)
           (limit : value) (forum : string) : M value :=
  data <- graphql_query GetUserComments_query
            (JObj [("userId", user_id); ("limit", limit)]) forum ;;
  comments_ <- lift (py_get "comments" (JObj []) data) ;;
  comments <- lift (py_get "results" (JArr []) comments_) ;;
  (* Filter by date if specified *)
  match since_date with
  | Some since_date =>
      items <- lift (py_iter comments) ;;
      kept <- lift (filter_r (posted_since since_date) items) ;;
      ret (JArr kept)
  | None => ret comments
  end.

(** [query_lower in t["name"].lower()] *)
Definition name_matches (query_lower : string) (t : value) : result bool :=
  rbind (py_getitem "name" t) (fun name =>
  rbind (py_str_lower name) (fun name_lower =>
  Ok (str_contains query_lower name_lower))).

Definition search_tags (query_str : string) (limit : Z) (forum : string)
  : M (list value) :=
  (* Note: The forum API doesn't have a proper search, so we fetch and
     filter *)
  data <- graphql_query SearchTags_query (JObj [("limit", JNum 200)])
            forum ;;
  tags_ <- lift (py_get "tags" (JObj []) data) ;;
  tags <- lift (py_get "results" (JArr []) tags_) ;;
  (* Filter by query string (case-insensitive) *)
  let query_lower := lower query_str in
  items <- lift (py_iter tags) ;;
  matching <- lift (filter_r (name_matches query_lower) items) ;;
  ret (slice_to limit matching).

Definition get_posts_by_tag (tag_id : value) (since_date : option datetime)
           (limit : value) (forum : string) : M value :=
  data <- graphql_query GetTagPosts_query
            (JObj [("tagId", tag_id); ("limit", limit)]) forum ;;
  posts_ <- lift (py_get "posts" (JObj []) data) ;;
  posts <- lift (py_get "results" (JArr []) posts_) ;;
  (* Filter by date if specified *)
  match since_date with
  | Some since_date =>
      items <- lift (py_iter posts) ;;
      kept <- lift (filter_r (posted_since since_date) items) ;;
      ret (JArr kept)
  | None => ret posts
  end.

End Client.

(** ** The client: searches, drafts, users and tags *)

Definition SearchPosts_query : string :=
  "
    query SearchPosts($searchQuery: String!, $limit: Int) {
      posts(input: {
        terms: {
          query: $searchQuery,
          limit: $limit
        }
      }) {
        results {
          _id
          title
          slug
          pageUrl
          postedAt
          baseScore
          voteCount
          commentCount
          user {
            displayName
            slug
          }
        }
      }
    }
    ".

Definition GetMyDrafts_query : string :=
  "
    query GetMyDrafts($limit: Int) {
      posts(input: {
        terms: {
          view: " ++ dquote ++ "drafts" ++ dquote ++ ",
          limit: $limit
        }
      }) {
        results {
          _id
          title
          slug
          pageUrl
          createdAt
          modifiedAt
          draft
        }
      }
    }
    ".

Definition GetUser_query : string :=
  "
    query GetUser($slug: String!) {
      user(input: { selector: { slug: $slug } }) {
        result {
          _id
          username
          displayName
          slug
          karma
        }
      }
    }
    ".

Definition GetTags_query : string :=
  "
    query GetTags($limit: Int) {
      tags(input: {
        terms: {
          view: " ++ dquote ++ "allTagsAlphabetical" ++ dquote ++ ",
          limit: $limit
        }
      }) {
        results {
          _id
          name
          slug
          postCount
        }
      }
    }
    ".

Section Lookups.

(** What the forum's server answers to a POST. *)
Variable server : request -> response.

Definition search_posts (query_str limit : value) (forum : string)
  : M value :=
data <- graphql_query server SearchPosts_query
          (JObj [("searchQuery", query_str); ("limit", limit)]) forum ;;
posts_ <- lift (py_get "posts" (JObj []) data) ;;
lift (py_get "results" (JArr []) posts_).

Definition get_my_drafts (limit : value) (forum : string) : M value :=
data <- graphql_query_authenticated server GetMyDrafts_query
          (JObj [("limit", limit)]) forum ;;
posts_ <- lift (py_get "posts" (JObj []) data) ;;
lift (py_get "results" (JArr []) posts_).

Definition get_user_by_slug (slug : string) (forum : string) : M value :=
data <- graphql_query server GetUser_query (JObj [("slug", JStr slug)])
          forum ;;
user_ <- lift (py_get "user" (JObj []) data) ;;
user <- lift (py_get "result" JNull user_) ;;
if negb (truthy user)
then raise (Exception_ ("User not found: " ++ slug))
else ret user.

(** [tag.get("slug", "").lower() == slug_lower] *)
Definition tag_slug_matches (slug_lower : string) (tag : value)
  : result bool :=
rbind (py_get "slug" (JStr "") tag) (fun s =>
rbind (py_str_lower s) (fun s_lower =>
Ok (s_lower =? slug_lower))).

Definition get_tag_by_slug (slug : string) (forum : string) : M value :=
data <- graphql_query server GetTags_query (JObj [("limit", JNum 500)])
          forum ;;
tags_ <- lift (py_get "tags" (JObj []) data) ;;
tags <- lift (py_get "results" (JArr []) tags_) ;;
(* Find the tag by slug *)
let slug_lower := lower slug in
items <- lift (py_iter tags) ;;
hit <- lift (find_r (tag_slug_matches slug_lower) items) ;;
match hit with
| Some tag => ret tag
| None => raise (Exception_ ("Tag/topic not found: " ++ slug))
end.

End Lookups.

(** ** Specification vocabulary *)

(** [s] is a forum key or one of the aliases listed for a forum. *)
Definition registered_name (s : string) : Prop :=
  In s forum_keys \/
  exists key config, In (key, config) FORUMS /\ In s (aliases config).

(** The text of the error for an unknown forum. *)
Definition unknown_forum_message (normalized : string) : string :=
  "Unknown forum: " ++ normalized
  ++ ". Valid options: lesswrong, eaforum, alignmentforum".

(** The key under which a forum's token is kept: the Alignment Forum
    shares the LessWrong account. *)
Definition fold_key (key : string) : string :=
  if key =? "alignmentforum" then "lesswrong" else key.

(** The [auth] mapping of a config dict: empty when the key is absent,
    undefined when the key holds anything but a dict. *)
Definition auth_of (config : dict) : option dict :=
  match dict_get "auth" config with
  | None => Some []
  | Some (JObj a) => Some a
  | Some _ => None
  end.

(** The JSON body of a GraphQL POST. *)
Definition query_payload (query : string) (variables : value) : value :=
  JObj (("query", JStr query)
        :: if truthy variables then [("variables", variables)] else []).

(** The POST of a GraphQL document to [url], with the given cookies. *)
Definition graphql_post (url query : string) (variables : value)
           (cookies : list (string * value)) : request :=
  {| req_url := url;
     req_json := query_payload query variables;
     req_headers := [("Content-Type", "application/json")];
     req_cookies := cookies |}.

(** The world after one more POST. *)
Definition after_post (w : world) (req : request) : world :=
  {| config_file := config_file w; sent := (sent w ++ [req])%list |}.

(** What the dispatcher makes of a reply: an error for a status of 400 to
    599, a body that is not JSON or a body with an [errors] key, else the
    [data] field. *)
Definition query_result (r : response) : result value :=
  rbind (raise_for_status r) (fun _ =>
  rbind (response_json r) (fun data =>
  rbind (py_contains "errors" data) (fun has_errors =>
  if has_errors : bool
  then rbind (py_getitem "errors" data) (fun errors =>
       Raise (GraphQLErrors errors))
  else py_get "data" (JObj []) data))).

(** [data.get(key, {}).get("results", [])] *)
Definition results_of (key : string) (data : value) : result value :=
  rbind (py_get key (JObj []) data) (py_get "results" (JArr [])).

(** What the ID lookup of [get_post_by_slug] makes of a reply:
    [data.get("post", {}).get("result")]. *)
Definition id_lookup_result (r : response) : result value :=
  rbind (query_result r) (fun data =>
  rbind (py_get "post" (JObj []) data) (py_get "result" JNull)).

(** What the slug scan of [get_post_by_slug] makes of a reply. *)
Definition slug_scan_result (identifier : string) (r : response)
  : result value :=
  rbind (query_result r) (fun data =>
  rbind (results_of "posts" data) (fun posts =>
  rbind (py_iter posts) (fun items =>
  rbind (find_r (slug_is (last (split_char "/" identifier) "")) items)
        (fun hit =>
           match hit with
           | Some post => Ok post
           | None => Raise (Exception_ ("Post not found: " ++ identifier))
           end)))).

(** The two requests of [get_post_by_slug]. *)
Definition id_lookup_request (url post_id : string) : request :=
  graphql_post url GetPostById_query (JObj [("documentId", JStr post_id)]) [].

Definition slug_scan_request (url : string) : request :=
  graphql_post url SearchBySlug_query (JObj [("limit", JNum 1000)]) [].

(** [post] is a dict whose [slug] is the string [slug]. *)
Definition post_slug_is (slug : string) (post : value) : bool :=
  match post with
  | JObj d => match dict_get "slug" d with
              | Some (JStr s) => s =? slug
              | _ => false
              end
  | _ => false
  end.

Definition is_dict (v : value) : Prop :=
  match v with JObj _ => True | _ => False end.

(** The time an item was posted, when it is a dict whose [postedAt] is a
    string that [fromisoformat] reads, a final "Z" standing for UTC. *)
Definition timestamp_of (fromisoformat : string -> option datetime)
           (item : value) : option datetime :=
  match item with
  | JObj d => match dict_get "postedAt" d with
              | Some (JStr s) => fromisoformat (replace_char "Z" "+00:00" s)
              | _ => None
              end
  | _ => None
  end.

(** The item was posted at the cutoff or later. *)
Definition on_or_after (fromisoformat : string -> option datetime)
           (cutoff : datetime) (item : value) : bool :=
  match timestamp_of fromisoformat item with
  | Some d => (dt_micros cutoff <=? dt_micros d)%Z
  | None => false
  end.

(** The item has a time that can be compared with the cutoff: both carry
    an offset, or neither does. *)
Definition comparable (fromisoformat : string -> option datetime)
           (cutoff : datetime) (item : value) : Prop :=
  exists d, timestamp_of fromisoformat item = Some d
            /\ dt_aware d = dt_aware cutoff.

(** The [data] object of the variables of a draft: the four fixed fields,
    then [url] and [question] when they are given. *)
Definition draft_data (title contents_markdown url question : value) : dict :=
  ([("title", title);
    ("contents",
     JObj [("originalContents",
            JObj [("type", JStr "markdown"); ("data", contents_markdown)])]);
    ("draft", JBool true);
    ("submitToFrontpage", JBool true)]
   ++ (if truthy url then [("url", url)] else [])
   ++ (if truthy question then [("question", JBool true)] else []))%list.

(** The name of a tag, when it is a dict whose [name] is a string. *)
Definition tag_name (t : value) : option string :=
  match t with
  | JObj d => match dict_get "name" d with
              | Some (JStr s) => Some s
              | _ => None
              end
  | _ => None
  end.

(** The tag's name contains the query, letter case aside. *)
Definition name_has (query_str : string) (t : value) : bool :=
  match tag_name t with
  | Some n => str_contains (lower query_str) (lower n)
  | None => false
  end.

Definition named (t : value) : Prop := exists n, tag_name t = Some n.

(** ** Worlds and servers of the examples *)

(** A server that answers every POST with the same status and body. *)
Definition const_server (status : Z) (reply : option value)
  : request -> response :=
  fun _ => {| status_code := status; body := reply |}.

(** A first run: no config file, nothing sent. *)
Definition fresh_world : world := {| config_file := NoFile; sent := [] |}.

(** A config with a digest setting and an EA Forum token. *)
Definition ea_config : dict :=
  [("subscriptions", JArr [JStr "daniel-kokotajlo"]);
   ("auth", JObj [("eaforum", JStr "ea-token")]);
   ("digest_days", JNum 14)].

Definition ea_world : world :=
  {| config_file := JsonFile (JObj ea_config); sent := [] |}.

(** The reply of a server that knows no post. *)
Definition empty_reply : dict := [("data", JObj [])].

Definition lesswrong_url : string := "https://www.lesswrong.com/graphql".

(** Seventeen letters and digits, then a line feed. *)
Definition id_then_newline : string := "pT75MFsLJArrBGkaF" ++ newline.

(** A config with a LessWrong token. *)
Definition lw_world : world :=
  {| config_file := JsonFile (JObj [("auth", JObj [("lesswrong", JStr "s3cret")])]);
     sent := [] |}.

(** Three posts a day apart, the second one at the cutoff. *)
Definition post_before : value :=
  JObj [("_id", JStr "p1"); ("postedAt", JStr "2024-03-09T12:00:00.000Z")].
Definition post_at_cutoff : value :=
  JObj [("_id", JStr "p2"); ("postedAt", JStr "2024-03-10T12:00:00.000Z")].
Definition post_after : value :=
  JObj [("_id", JStr "p3"); ("postedAt", JStr "2024-03-11T12:00:00.000Z")].

Definition cutoff_2024_03_10 : datetime :=
  {| dt_micros := 1710072000000000; dt_aware := true |}.

(** [datetime.fromisoformat] on the three timestamps of the example. *)
Definition iso_table (s : string) : option datetime :=
  if s =? "2024-03-09T12:00:00.000+00:00"
  then Some {| dt_micros := 1709985600000000; dt_aware := true |}
  else if s =? "2024-03-10T12:00:00.000+00:00"
  then Some {| dt_micros := 1710072000000000; dt_aware := true |}
  else if s =? "2024-03-11T12:00:00.000+00:00"
  then Some {| dt_micros := 1710158400000000; dt_aware := true |}
  else None.

(** A server that lists the three posts, newest first. *)
Definition posts_reply : value :=
  JObj [("posts",
         JObj [("results", JArr [post_after; post_at_cutoff; post_before])])].

Definition posts_server : request -> response :=
  const_server 200 (Some (JObj [("data", posts_reply)])).

(** The two tags of the search example. *)
Definition tag_ai_alignment : value :=
  JObj [("name", JStr "AI Alignment"); ("slug", JStr "ai-alignment")].
Definition tag_epistemology : value :=
  JObj [("name", JStr "Epistemology"); ("slug", JStr "epistemology")].

Definition tags_reply : value :=
  JObj [("tags",
         JObj [("results", JArr [tag_ai_alignment; tag_epistemology])])].

Definition tags_server : request -> response :=
  const_server 200 (Some (JObj [("data", tags_reply)])).

(** A reply that succeeds and carries an empty list of errors. *)
Definition empty_errors_reply : dict :=
  [("errors", JArr []); ("data", JObj [("post", JNull)])].

Definition empty_errors_server : request -> response :=
  const_server 200 (Some (JObj empty_errors_reply)).

(** The text of the error for a missing token. *)
Definition no_token_message (forum : string) : string :=
  "No auth token configured for " ++ forum
  ++ ". See 'set-token' command or add token to config.json.".

(** The tag is a dict whose slug, the empty string when it has none, is
    [slug_lower] once lower-cased. *)
Definition tag_slug_is (slug_lower : string) (tag : value) : bool :=
  match tag with
  | JObj d => match dict_get "slug" d with
              | Some (JStr s) => lower s =? slug_lower
              | Some _ => false
              | None => "" =? slug_lower
              end
  | _ => false
  end.

(** The tag is a dict whose slug is a string or absent. *)
Definition slug_readable (tag : value) : Prop :=
  match tag with
  | JObj d => match dict_get "slug" d with
              | Some (JStr _) | None => True
              | Some _ => False
              end
  | _ => False
  end.

(** A config that holds nothing but an [auth] entry that is not a dict. *)
Definition null_auth_world : world :=
  {| config_file := JsonFile (JObj [("auth", JNull)]); sent := [] |}.

(** A server that knows one user. *)
Definition user_daniel : value :=
  JObj [("_id", JStr "u1"); ("slug", JStr "daniel-kokotajlo");
        ("karma", JNum 12000)].

Definition user_server : request -> response :=
  const_server 200
    (Some (JObj [("data", JObj [("user", JObj [("result", user_daniel)])])])).

(** A server that lists two posts with their slugs. *)
Definition post_tutorial : value :=
  JObj [("_id", JStr "LJiGhpq8w4Badr5KJ"); ("slug", JStr "graphql-tutorial")].
Definition post_summary : value :=
  JObj [("_id", JStr "pT75MFsLJArrBGkaF"); ("slug", JStr "simple-summary")].

Definition slugs_reply : value :=
  JObj [("posts", JObj [("results", JArr [post_tutorial; post_summary])])].

Definition slugs_server : request -> response :=
  const_server 200 (Some (JObj [("data", slugs_reply)])).

(** A server that refuses every request. *)
Definition forbidden_server : request -> response :=
  const_server 403 None.

(** A post without a [postedAt] field. *)
Definition post_undated : value := JObj [("_id", JStr "p4")].

(** A server that lists a dated post and an undated one. *)
Definition undated_reply : value :=
  JObj [("posts", JObj [("results", JArr [post_after; post_undated])])].

Definition undated_server : request -> response :=
  const_server 200 (Some (JObj [("data", undated_reply)])).

(** A reply whose [posts] field is null. *)
Definition null_posts_server : request -> response :=
  const_server 200 (Some (JObj [("data", JObj [("posts", JNull)])])).

(** What [get_user_by_slug] makes of a reply:
    [data.get("user", {}).get("result")]. *)
Definition user_lookup_result (r : response) : result value :=
  rbind (query_result r) (fun data =>
  rbind (py_get "user" (JObj []) data) (py_get "result" JNull)).

(** The request of [get_user_by_slug]. *)
Definition user_request (url slug : string) : request :=
  graphql_post url GetUser_query (JObj [("slug", JStr slug)]) [].

(** The request of [get_tag_by_slug]. *)
Definition tags_request (url : string) : request :=
  graphql_post url GetTags_query (JObj [("limit", JNum 500)]) [].

(** * Properties *)

(** ** Forum resolution *)

Lemma existsb_eqb_In (s : string) (l : list string) :
  existsb (String.eqb s) l = true <-> In s l.
Proof.
  rewrite existsb_exists. split.
  - intros (x & Hx & He). apply String.eqb_eq in He. now subst.
  - intros H. exists s. split; [assumption | apply String.eqb_refl].
Qed.

Lemma existsb_eqb_notIn (s : string) (l : list string) :
  ~ In s l -> existsb (String.eqb s) l = false.
Proof.
  intros H. destruct (existsb (String.eqb s) l) eqn:E; [| reflexivity].
  apply existsb_eqb_In in E. contradiction.
Qed.

Example resolve_lw : resolve_forum "  LW " = Ok "lesswrong".
Proof. reflexivity. Qed.

Example resolve_unknown :
  resolve_forum "Reddit" =
  Raise (ValueError
    "Unknown forum: reddit. Valid options: lesswrong, eaforum, alignmentforum").
Proof. reflexivity. Qed.

(** Every key and alias of the registry is already lower case and has no
    white space around it, so it resolves as it is. *)
Lemma resolve_forum_registered (key : string) (config : forum_config)
      (alias : string) :
  In (key, config) FORUMS -> In alias (aliases config) ->
  resolve_forum alias = Ok key /\ resolve_forum key = Ok key.
Proof.
  intros Hk Ha. simpl in Hk.
  repeat match goal with
         | H : _ \/ _ |- _ => destruct H
         | H : (_, _) = (_, _) |- _ => inversion H; clear H; subst
         | H : False |- _ => destruct H
         end;
    simpl in Ha;
    repeat match goal with
           | H : _ \/ _ |- _ => destruct H
           | H : False |- _ => destruct H
           end;
    subst; split; reflexivity.
Qed.

(** The resolver only looks at the lower-cased input. *)
Lemma resolve_forum_lower (s t : string) :
  lower s = lower t -> resolve_forum s = resolve_forum t.
Proof.
  intros H. unfold resolve_forum. now rewrite H.
Qed.

(** C1. Forum resolution is case-insensitive and alias-complete: for every
    forum of the registry and every alias declared for it, any spelling of
    the alias that differs from it only in letter case, and any such
    spelling of the canonical key, resolve to that same canonical key. *)
Theorem resolve_forum_alias_complete
        (key : string) (config : forum_config) (alias s_alias s_key : string) :
  In (key, config) FORUMS -> In alias (aliases config) ->
  lower s_alias = lower alias -> lower s_key = lower key ->
  resolve_forum s_alias = Ok key /\ resolve_forum s_key = Ok key.
Proof.
  intros Hk Ha Hs1 Hs2.
  rewrite (resolve_forum_lower _ _ Hs1), (resolve_forum_lower _ _ Hs2).
  exact (resolve_forum_registered _ _ _ Hk Ha).
Qed.

Lemma resolve_forum_alias_complete_witness :
  resolve_forum "Less-Wrong" = Ok "lesswrong"
  /\ resolve_forum "LessWrong" = Ok "lesswrong".
Proof.
  apply (resolve_forum_alias_complete
           "lesswrong"
           {| name := "LessWrong";
              url := "https://www.lesswrong.com/graphql";
              base_url := "https://www.lesswrong.com";
              aliases := ["lw"; "less-wrong"] |}
           "less-wrong" "Less-Wrong" "LessWrong").
  - simpl. left. reflexivity.
  - simpl. right. left. reflexivity.
  - reflexivity.
  - reflexivity.
Defined.

Ltac not_registered :=
  let H := fresh in
  intros [H | (? & ? & H & ?)]; simpl in H;
  repeat match goal with
         | H : _ \/ _ |- _ => destruct H
         | H : (_, _) = (_, _) |- _ => inversion H; clear H; subst
         | H : False |- _ => destruct H
         | H : _ = _ :> string |- _ => discriminate H
         | H : In _ (aliases _) |- _ => simpl in H
         end.

(** C7, as stated, fails: a name with white space around it equals no key
    and no alias, in any letter case, and still resolves. *)
Lemma resolve_forum_padded_name_resolves :
  ~ registered_name " lw" /\ ~ registered_name (lower " lw")
  /\ resolve_forum " lw" = Ok "lesswrong".
Proof.
  split; [| split].
  - not_registered.
  - not_registered.
  - reflexivity.
Qed.

(** C7, amended. For every input whose lower-cased form, white space at
    both ends removed, equals neither a forum key nor a listed alias,
    [resolve_forum] raises a [ValueError] whose message names that form and
    lists the valid keys. *)
Theorem resolve_forum_unknown (s : string) :
  ~ registered_name (strip (lower s)) ->
  resolve_forum s = Raise (ValueError (unknown_forum_message (strip (lower s)))).
Proof.
  intros H. unfold resolve_forum.
  set (x := strip (lower s)) in *.
  assert (Hk : ~ In x forum_keys) by (intros Hin; apply H; now left).
  rewrite (existsb_eqb_notIn _ _ Hk).
  assert (Ha : forall key config,
             In (key, config) FORUMS ->
             existsb (String.eqb x) (aliases config) = false).
  { intros key config Hin. apply existsb_eqb_notIn.
    intros Hal. apply H. right. now exists key, config. }
  pose proof (Ha _ _ (or_introl eq_refl)) as H1.
  pose proof (Ha _ _ (or_intror (or_introl eq_refl))) as H2.
  pose proof (Ha _ _ (or_intror (or_intror (or_introl eq_refl)))) as H3.
  unfold FORUMS. cbn [find fst snd aliases] in *.
  rewrite H1, H2, H3. reflexivity.
Qed.

Lemma resolve_forum_unknown_witness :
  ~ registered_name (strip (lower "Reddit"))
  /\ resolve_forum "Reddit" =
     Raise (ValueError
       "Unknown forum: reddit. Valid options: lesswrong, eaforum, alignmentforum").
Proof.
  assert (H : ~ registered_name (strip (lower "Reddit")))
    by (vm_compute strip; not_registered).
  split; [exact H |].
  exact (resolve_forum_unknown "Reddit" H).
Defined.

(** ** Dictionaries *)

Lemma dict_get_set_same (k : string) (v : value) (d : dict) :
  dict_get k (dict_set k v d) = Some v.
Proof.
  induction d as [| [k' v'] d IH]; simpl.
  - now rewrite String.eqb_refl.
  - destruct (k' =? k) eqn:E; simpl.
    + now rewrite String.eqb_refl.
    + now rewrite E.
Qed.

Lemma dict_get_set_other (k k' : string) (v : value) (d : dict) :
  k' <> k -> dict_get k' (dict_set k v d) = dict_get k' d.
Proof.
  intros Hne. apply not_eq_sym in Hne. apply String.eqb_neq in Hne.
  induction d as [| [k0 v0] d IH]; simpl.
  - now rewrite Hne.
  - destruct (k0 =? k) eqn:E; simpl.
    + apply String.eqb_eq in E. subst k0. now rewrite Hne.
    + now rewrite IH.
Qed.

Lemma dict_set_set (k : string) (v v0 : value) (d : dict) :
  dict_set k v (dict_set k v0 d) = dict_set k v d.
Proof.
  induction d as [| [k' v'] d IH]; simpl.
  - now rewrite String.eqb_refl.
  - destruct (k' =? k) eqn:E; simpl.
    + now rewrite String.eqb_refl.
    + now rewrite E, IH.
Qed.

(** Updating a dict keeps its keys in place, a new key going last. *)
Lemma dict_set_keys (k : string) (v : value) (d : dict) :
  map fst (dict_set k v d) =
  if dict_mem k d then map fst d else (map fst d ++ [k])%list.
Proof.
  unfold dict_mem.
  induction d as [| [k' v'] d IH]; simpl; [reflexivity |].
  destruct (k' =? k) eqn:E; simpl.
  - apply String.eqb_eq in E. now subst.
  - rewrite IH. now destruct (dict_get k d).
Qed.

(** ** The token store *)

Lemma load_config_world (w : world) : snd (load_config w) = w.
Proof. unfold load_config. now destruct (config_file w). Qed.

(** What [save_auth_token] writes, in closed form. *)
Lemma save_auth_token_writes (forum : string) (token : value) (w : world)
      (config auth : dict) (key : string) :
  load_config w = (Ok (JObj config), w) ->
  auth_of config = Some auth ->
  resolve_forum forum = Ok key ->
  save_auth_token forum token w =
  (Ok (fold_key key),
   {| config_file :=
        JsonFile (JObj (dict_set "auth"
                          (JObj (dict_set (fold_key key) token auth)) config));
      sent := sent w |}).
Proof.
  intros Hload Hauth Hres.
  unfold save_auth_token, bind. rewrite Hload.
  unfold lift, ret, py_contains, dict_mem, auth_of in *.
  destruct (dict_get "auth" config) as [a |] eqn:Hget.
  - destruct a; try discriminate. injection Hauth as ->.
    cbn [negb]. rewrite Hres.
    unfold py_setitem2, py_getitem, rbind. rewrite Hget.
    reflexivity.
  - injection Hauth as <-.
    cbn [negb py_setitem]. rewrite Hres.
    unfold py_setitem2, py_getitem, rbind.
    rewrite dict_get_set_same. cbn [py_setitem].
    rewrite dict_set_set. reflexivity.
Qed.

(** What [get_auth_token] reads, in closed form. *)
Lemma get_auth_token_reads (forum : string) (w : world)
      (config auth : dict) (key : string) :
  load_config w = (Ok (JObj config), w) ->
  auth_of config = Some auth ->
  resolve_forum forum = Ok key ->
  get_auth_token forum w =
  (Ok match dict_get (fold_key key) auth with
      | Some token => token
      | None => JNull
      end, w).
Proof.
  intros Hload Hauth Hres.
  unfold get_auth_token, bind. rewrite Hload.
  unfold lift, py_get, auth_of in *.
  destruct (dict_get "auth" config) as [a |] eqn:Hget.
  - destruct a; try discriminate. injection Hauth as ->.
    rewrite Hres. fold (fold_key key).
    now destruct (dict_get (fold_key key) auth).
  - injection Hauth as <-. rewrite Hres. reflexivity.
Qed.

(** Saving under one name and reading under another agree whenever the two
    names fold to the same key. *)
Lemma save_then_get (f1 f2 : string) (token : value) (w : world)
      (config auth : dict) (k1 k2 : string) :
  load_config w = (Ok (JObj config), w) ->
  auth_of config = Some auth ->
  resolve_forum f1 = Ok k1 -> resolve_forum f2 = Ok k2 ->
  fold_key k1 = fold_key k2 ->
  exists w',
    save_auth_token f1 token w = (Ok (fold_key k1), w')
    /\ get_auth_token f2 w' = (Ok token, w').
Proof.
  intros Hload Hauth H1 H2 Hfold.
  eexists. split.
  - exact (save_auth_token_writes f1 token w config auth k1 Hload Hauth H1).
  - erewrite get_auth_token_reads; [| reflexivity | | exact H2].
    + rewrite <- Hfold, dict_get_set_same. reflexivity.
    + unfold auth_of. rewrite dict_get_set_same. reflexivity.
Qed.

(** C3. Token storage and lookup fold aliases alike and round-trip: from
    any config that loads as a dict whose [auth] is absent or a dict, saving
    a token for "alignmentforum" succeeds and a lookup for "lesswrong" then
    returns it, and the same with the two names exchanged. *)
Theorem token_round_trip (token : value) (w : world) (config auth : dict) :
  load_config w = (Ok (JObj config), w) ->
  auth_of config = Some auth ->
  (exists w',
      save_auth_token "alignmentforum" token w = (Ok "lesswrong", w')
      /\ get_auth_token "lesswrong" w' = (Ok token, w'))
  /\
  (exists w',
      save_auth_token "lesswrong" token w = (Ok "lesswrong", w')
      /\ get_auth_token "alignmentforum" w' = (Ok token, w')).
Proof.
  intros Hload Hauth. split.
  - exact (save_then_get "alignmentforum" "lesswrong" token w config auth
             "alignmentforum" "lesswrong" Hload Hauth eq_refl eq_refl eq_refl).
  - exact (save_then_get "lesswrong" "alignmentforum" token w config auth
             "lesswrong" "alignmentforum" Hload Hauth eq_refl eq_refl eq_refl).
Qed.

Lemma token_round_trip_witness :
  (exists w',
      save_auth_token "alignmentforum" (JStr "s3cret") fresh_world
      = (Ok "lesswrong", w')
      /\ get_auth_token "lesswrong" w' = (Ok (JStr "s3cret"), w'))
  /\
  (exists w',
      save_auth_token "lesswrong" (JStr "s3cret") fresh_world
      = (Ok "lesswrong", w')
      /\ get_auth_token "alignmentforum" w' = (Ok (JStr "s3cret"), w')).
Proof.
  apply (token_round_trip (JStr "s3cret") fresh_world default_config []).
  - reflexivity.
  - reflexivity.
Defined.

(** C10. [save_auth_token] changes only the [auth] entry of the folded
    forum key: from any config that loads as a dict whose [auth] is absent
    or a dict, and for any name that resolves, it returns the folded key,
    sends nothing, and writes a config whose [auth] holds the token under
    that key, every other top-level field and every other [auth] entry
    being as they were loaded. *)
Theorem save_auth_token_frame (forum : string) (token : value) (w : world)
        (config auth : dict) (key : string) :
  load_config w = (Ok (JObj config), w) ->
  auth_of config = Some auth ->
  resolve_forum forum = Ok key ->
  exists config' auth',
    save_auth_token forum token w =
      (Ok (fold_key key),
       {| config_file := JsonFile (JObj config'); sent := sent w |})
    /\ dict_get "auth" config' = Some (JObj auth')
    /\ dict_get (fold_key key) auth' = Some token
    /\ (forall field, field <> "auth" ->
                      dict_get field config' = dict_get field config)
    /\ (forall k, k <> fold_key key -> dict_get k auth' = dict_get k auth).
Proof.
  intros Hload Hauth Hres.
  exists (dict_set "auth" (JObj (dict_set (fold_key key) token auth)) config),
         (dict_set (fold_key key) token auth).
  split; [| split; [| split; [| split]]].
  - exact (save_auth_token_writes forum token w config auth key
             Hload Hauth Hres).
  - apply dict_get_set_same.
  - apply dict_get_set_same.
  - intros field Hne. now apply dict_get_set_other.
  - intros k Hne. now apply dict_get_set_other.
Qed.

Lemma save_auth_token_frame_witness :
  exists config' auth',
    save_auth_token "AF" (JStr "s3cret") ea_world =
      (Ok "lesswrong",
       {| config_file := JsonFile (JObj config'); sent := [] |})
    /\ dict_get "auth" config' = Some (JObj auth')
    /\ dict_get "lesswrong" auth' = Some (JStr "s3cret")
    /\ (forall field, field <> "auth" ->
                      dict_get field config' = dict_get field ea_config)
    /\ (forall k, k <> "lesswrong" ->
                  dict_get k auth' =
                  dict_get k [("eaforum", JStr "ea-token")]).
Proof.
  apply (save_auth_token_frame "AF" (JStr "s3cret") ea_world ea_config
           [("eaforum", JStr "ea-token")] "alignmentforum").
  - reflexivity.
  - reflexivity.
  - reflexivity.
Defined.

(** The positions of the top-level keys are kept too: only a missing
    [auth] key is added, at the end. *)
Lemma save_auth_token_keys (forum : string) (token : value) (w : world)
      (config auth : dict) (key : string) :
  load_config w = (Ok (JObj config), w) ->
  auth_of config = Some auth ->
  resolve_forum forum = Ok key ->
  exists config',
    config_file (snd (save_auth_token forum token w))
    = JsonFile (JObj config')
    /\ map fst config' =
       if dict_mem "auth" config then map fst config
       else (map fst config ++ ["auth"])%list.
Proof.
  intros Hload Hauth Hres.
  rewrite (save_auth_token_writes forum token w config auth key
             Hload Hauth Hres).
  eexists. split; [reflexivity |]. apply dict_set_keys.
Qed.

(** The file is written last: a call that raises leaves the world as it
    was, whatever the config file holds. *)
Lemma save_auth_token_raise (forum : string) (token : value) (w : world)
      (e : exn) (w' : world) :
  save_auth_token forum token w = (Raise e, w') -> w' = w.
Proof.
  unfold save_auth_token, bind, load_config, lift, ret, write_config.
  destruct (config_file w) as [| | config].
  - cbn [py_contains dict_mem dict_get default_config String.eqb Ascii.eqb
         Bool.eqb negb py_setitem dict_set].
    destruct (resolve_forum forum); [| now intros [= _ <-]].
    cbn. discriminate.
  - now intros [= _ <-].
  - destruct (py_contains "auth" config) as [[|] |]; cbn [negb];
      try (now intros [= _ <-]).
    + destruct (resolve_forum forum); [| now intros [= _ <-]].
      destruct (py_setitem2 _ _ _ _); [discriminate | now intros [= _ <-]].
    + destruct (py_setitem "auth" (JObj []) config);
        [| now intros [= _ <-]].
      destruct (resolve_forum forum); [| now intros [= _ <-]].
      destruct (py_setitem2 _ _ _ _); [discriminate | now intros [= _ <-]].
Qed.

(** An [auth] entry that is not a dict makes the call raise. *)
Example save_auth_token_null_auth :
  save_auth_token "lw" (JStr "s3cret")
    {| config_file := JsonFile (JObj [("auth", JNull)]); sent := [] |}
  = (Raise TypeError,
     {| config_file := JsonFile (JObj [("auth", JNull)]); sent := [] |}).
Proof. reflexivity. Qed.

(** A config without an entry for the folded key has no token. *)
Lemma get_auth_token_absent (forum : string) (w : world)
      (config auth : dict) (key : string) :
  load_config w = (Ok (JObj config), w) ->
  auth_of config = Some auth ->
  resolve_forum forum = Ok key ->
  dict_get (fold_key key) auth = None ->
  get_auth_token forum w = (Ok JNull, w).
Proof.
  intros Hload Hauth Hres Hnone.
  rewrite (get_auth_token_reads forum w config auth key Hload Hauth Hres).
  now rewrite Hnone.
Qed.

Lemma get_auth_token_world (forum : string) (w : world) :
  snd (get_auth_token forum w) = w.
Proof.
  unfold get_auth_token, bind, load_config, lift.
  destruct (config_file w); cbn [snd]; try reflexivity;
    repeat match goal with
           | |- snd (match ?r with _ => _ end) = _ =>
               destruct r; cbn [snd]; try reflexivity
           | |- snd (let (_, _) := ?p in _) = _ =>
               destruct p; cbn [snd]; try reflexivity
           end.
Qed.

(** ** The request dispatcher *)

(** C4. For every forum whose token lookup gives [None],
    [graphql_query_authenticated] raises the "No auth token configured"
    error and leaves the world as it was: no POST has been issued. *)
Theorem authenticated_query_needs_token
        (server : request -> response) (query : string) (variables : value)
        (forum : string) (w : world) :
  get_auth_token forum w = (Ok JNull, w) ->
  graphql_query_authenticated server query variables forum w =
    (Raise (Exception_
       ("No auth token configured for " ++ forum
        ++ ". See 'set-token' command or add token to config.json.")), w)
  /\ sent (snd (graphql_query_authenticated server query variables forum w))
     = sent w.
Proof.
  intros Htok.
  assert (E : graphql_query_authenticated server query variables forum w =
    (Raise (Exception_
       ("No auth token configured for " ++ forum
        ++ ". See 'set-token' command or add token to config.json.")), w)).
  { unfold graphql_query_authenticated, bind. rewrite Htok.
    cbn [truthy negb]. reflexivity. }
  split; [exact E | now rewrite E].
Qed.

Lemma authenticated_query_needs_token_witness :
  get_auth_token "lw" fresh_world = (Ok JNull, fresh_world)
  /\ graphql_query_authenticated
       (const_server 200 (Some (JObj []))) "query { currentUser { _id } }"
       JNull "lw" fresh_world
     = (Raise (Exception_
          "No auth token configured for lw. See 'set-token' command or add token to config.json."),
        fresh_world)
  /\ sent (snd (graphql_query_authenticated
                  (const_server 200 (Some (JObj [])))
                  "query { currentUser { _id } }" JNull "lw" fresh_world))
     = [].
Proof.
  split; [reflexivity |].
  apply (authenticated_query_needs_token
           (const_server 200 (Some (JObj []))) "query { currentUser { _id } }"
           JNull "lw" fresh_world).
  reflexivity.
Defined.

(** A request reaches the network only after the forum has resolved, and
    then it is the one POST of the payload, without cookies. *)
Lemma graphql_query_steps (server : request -> response)
      (query : string) (variables : value) (forum : string) (w : world)
      (url : string) :
  get_forum_url forum = Ok url ->
  let req := graphql_post url query variables [] in
  graphql_query server query variables forum w =
  (query_result (server req), after_post w req).
Proof.
  intros Hurl req. subst req.
  unfold graphql_query, query_result, bind, lift. rewrite Hurl.
  unfold graphql_post, query_payload, after_post, requests_post, ret, raise.
  destruct (truthy variables);
    cbn [py_setitem dict_set String.eqb Ascii.eqb Bool.eqb];
    match goal with
    | |- context [raise_for_status ?r] =>
        destruct (raise_for_status r); cbn [rbind]; [| reflexivity];
        destruct (response_json r) as [data |]; cbn [rbind]; [| reflexivity];
        destruct (py_contains "errors" data) as [[|] |]; cbn [rbind];
        try reflexivity;
        now destruct (py_getitem "errors" data)
    end.
Qed.

Lemma graphql_query_unknown_forum (server : request -> response)
      (query : string) (variables : value) (forum : string) (w : world)
      (e : exn) :
  resolve_forum forum = Raise e ->
  graphql_query server query variables forum w = (Raise e, w).
Proof.
  intros H. unfold graphql_query, bind, lift, get_forum_url.
  now rewrite H.
Qed.

(** C2, as stated, fails: a 200 reply whose body carries an empty
    [errors] list makes [graphql_query] raise, the [data] beside it being
    dropped. *)
Lemma graphql_query_empty_errors_raises :
  status_code (empty_errors_server
                 (graphql_post lesswrong_url "query { post { _id } }" JNull []))
  = 200
  /\ body (empty_errors_server
             (graphql_post lesswrong_url "query { post { _id } }" JNull []))
     = Some (JObj empty_errors_reply)
  /\ dict_get "errors" empty_errors_reply = Some (JArr [])
  /\ fst (graphql_query empty_errors_server "query { post { _id } }" JNull
                        "lesswrong" fresh_world)
     = Raise (GraphQLErrors (JArr [])).
Proof. repeat split. Qed.

(** A status outside 200..299 that [raise_for_status] lets through: the
    body is then read like that of any reply. *)
Example graphql_query_status_304_returns :
  fst (graphql_query (const_server 304 (Some (JObj [("data", JNum 1)])))
                     "query { x }" JNull "lesswrong" fresh_world)
  = Ok (JNum 1).
Proof. reflexivity. Qed.

(** C2, amended. For a forum that resolves and a reply whose body is a
    JSON object, [graphql_query] issues exactly one POST, without cookies,
    and raises exactly when the status lies in 400..599 or the body has an
    [errors] key, whatever its value; otherwise it returns the body's
    [data] field, or an empty mapping when the field is absent. *)
Theorem graphql_query_outcome (server : request -> response)
        (query : string) (variables : value) (forum : string) (w : world)
        (url : string) (reply : dict) :
  get_forum_url forum = Ok url ->
  let req := graphql_post url query variables [] in
  body (server req) = Some (JObj reply) ->
  let out := graphql_query server query variables forum w in
  snd out = after_post w req
  /\ req_cookies req = []
  /\ (is_raise (fst out) = true <->
      (400 <= status_code (server req) < 600 \/ dict_mem "errors" reply = true))
  /\ (is_raise (fst out) = false ->
      fst out = Ok match dict_get "data" reply with
                   | Some data => data
                   | None => JObj []
                   end).
Proof.
  intros Hurl req Hbody out. subst out.
  rewrite (graphql_query_steps server query variables forum w url Hurl).
  fold req. cbn [fst snd].
  unfold query_result, raise_for_status, response_json. rewrite Hbody.
  split; [reflexivity |]. split; [reflexivity |].
  set (st := status_code (server req)).
  destruct ((400 <=? st)%Z && (st <? 600)%Z) eqn:Hst; cbn [rbind].
  - apply andb_true_iff in Hst. destruct Hst as [Hlo Hhi].
    apply Z.leb_le in Hlo. apply Z.ltb_lt in Hhi.
    split.
    + split; [intros _; left; lia | reflexivity].
    + intros H. discriminate H.
  - assert (Hout : ~ (400 <= st < 600)).
    { intros [Hlo Hhi]. apply Z.leb_le in Hlo. apply Z.ltb_lt in Hhi.
      rewrite Hlo, Hhi in Hst. discriminate Hst. }
    cbn [py_contains]. unfold dict_mem, py_getitem, py_get.
    destruct (dict_get "errors" reply) as [errs |]; cbn [rbind is_raise].
    + split.
      * split; [intros _; right; reflexivity | reflexivity].
      * intros H. discriminate H.
    + destruct (dict_get "data" reply) as [data |]; cbn [is_raise];
        (split; [| reflexivity]);
        (split; [intros H; discriminate H |]);
        intros [Hs | Hf]; (contradiction || discriminate Hf).
Qed.

Lemma graphql_query_outcome_witness :
  get_forum_url "EA" = Ok "https://forum.effectivealtruism.org/graphql"
  /\ snd (graphql_query (const_server 200 (Some (JObj empty_reply)))
                        "query { currentUser { _id } }" JNull "EA"
                        fresh_world)
     = after_post fresh_world
         (graphql_post "https://forum.effectivealtruism.org/graphql"
                       "query { currentUser { _id } }" JNull [])
  /\ (is_raise (fst (graphql_query (const_server 200 (Some (JObj empty_reply)))
                                   "query { currentUser { _id } }" JNull "EA"
                                   fresh_world)) = false ->
      fst (graphql_query (const_server 200 (Some (JObj empty_reply)))
                         "query { currentUser { _id } }" JNull "EA"
                         fresh_world)
      = Ok (JObj [])).
Proof.
  split; [reflexivity |].
  pose proof (graphql_query_outcome
                (const_server 200 (Some (JObj empty_reply)))
                "query { currentUser { _id } }" JNull "EA" fresh_world
                "https://forum.effectivealtruism.org/graphql" empty_reply
                eq_refl eq_refl) as H.
  cbv zeta in H. destruct H as (Hw & _ & _ & Hdata).
  split; [exact Hw | exact Hdata].
Defined.

(** ** Post lookup *)

Lemma drop_prefix_app (p s : string) : drop_prefix p (p ++ s) = Some s.
Proof.
  induction p as [| c p IH]; simpl; [reflexivity |].
  now rewrite Ascii.eqb_refl.
Qed.

Lemma drop_prefix_Some (p s r : string) :
  drop_prefix p s = Some r -> s = p ++ r.
Proof.
  revert s. induction p as [| c p IH]; intros s H; simpl in *.
  - now injection H as ->.
  - destruct s as [| d s]; [discriminate |].
    destruct (Ascii.eqb c d) eqn:E; [| discriminate].
    apply Ascii.eqb_eq in E. subst d. f_equal. now apply IH.
Qed.

(** Only the first [length p] characters of a string decide whether [p]
    begins it. *)
Lemma drop_prefix_None_app (p s t : string) :
  (String.length p <= String.length s)%nat ->
  drop_prefix p s = None -> drop_prefix p (s ++ t) = None.
Proof.
  revert s. induction p as [| c p IH]; intros s Hlen H; simpl in *.
  - discriminate.
  - destruct s as [| d s]; simpl in *; [lia |].
    destruct (Ascii.eqb c d); [| reflexivity].
    apply IH; [lia | assumption].
Qed.

Lemma span_alnum_app (id rest : string) (d : ascii) :
  all_alnum id = true -> is_alnum d = false ->
  span_alnum (id ++ String d rest) = (id, String d rest).
Proof.
  intros Hid Hd. induction id as [| c id IH]; simpl in *.
  - now rewrite Hd.
  - apply andb_true_iff in Hid. destruct Hid as [Hc Hid].
    now rewrite Hc, (IH Hid).
Qed.

Lemma span_alnum_split (s run rest : string) :
  span_alnum s = (run, rest) -> s = run ++ rest /\ all_alnum run = true.
Proof.
  revert run rest. induction s as [| c s IH]; intros run rest H; simpl in *.
  - injection H as <- <-. now split.
  - destruct (is_alnum c) eqn:Hc.
    + destruct (span_alnum s) as [run' rest'].
      injection H as <- <-. destruct (IH _ _ eq_refl) as [-> Hr].
      split; [reflexivity | simpl; now rewrite Hc].
    + injection H as <- <-. now split.
Qed.

(** A match of the URL pattern at the head of a string, read back. *)
Lemma match_posts_at_Some (s id : string) :
  match_posts_at s = Some id ->
  exists rest, s = "/posts/" ++ id ++ "/" ++ rest
               /\ id <> "" /\ all_alnum id = true.
Proof.
  unfold match_posts_at. intros H.
  destruct (drop_prefix "/posts/" s) as [r |] eqn:Hp; [| discriminate].
  apply drop_prefix_Some in Hp.
  destruct (span_alnum r) as [run rest] eqn:Hs.
  destruct run as [| c run]; [discriminate |].
  destruct rest as [| d rest]; [discriminate |].
  destruct (Ascii.eqb d "/") eqn:Hd; [| discriminate].
  apply Ascii.eqb_eq in Hd. subst d. injection H as <-.
  apply span_alnum_split in Hs. destruct Hs as [-> Hal].
  exists rest. repeat split; [exact Hp | discriminate | exact Hal].
Qed.

Lemma match_posts_at_here (id rest : string) :
  id <> "" -> all_alnum id = true ->
  match_posts_at ("/posts/" ++ id ++ "/" ++ rest) = Some id.
Proof.
  intros Hne Hal. unfold match_posts_at.
  rewrite drop_prefix_app.
  change (id ++ "/" ++ rest) with (id ++ String "/" rest).
  rewrite (span_alnum_app id rest "/" Hal eq_refl).
  destruct id; [contradiction | reflexivity].
Qed.

(** What [re.search] extracts is a non-empty run of letters and digits that
    stands between "/posts/" and a slash in the identifier. *)
Lemma re_search_posts_id_sound (s id : string) :
  re_search_posts_id s = Some id ->
  exists pre rest, s = pre ++ "/posts/" ++ id ++ "/" ++ rest
                   /\ id <> "" /\ all_alnum id = true.
Proof.
  induction s as [| c s IH]; intros H.
  - discriminate H.
  - cbn [re_search_posts_id] in H.
    destruct (match_posts_at (String c s)) as [id' |] eqn:Hm.
    + injection H as ->. apply match_posts_at_Some in Hm.
      destruct Hm as (rest & Hs & Hne & Hal).
      exists "", rest. now repeat split.
    + destruct (IH H) as (pre & rest & Hs & Hne & Hal).
      exists (String c pre), rest. repeat split; try assumption.
      simpl. now rewrite Hs.
Qed.

Lemma str_app_assoc (a b c : string) : (a ++ b) ++ c = a ++ b ++ c.
Proof. induction a as [| x a IH]; simpl; [reflexivity | now rewrite IH]. Qed.

Lemma str_length_app (a b : string) :
  String.length (a ++ b) = (String.length a + String.length b)%nat.
Proof. induction a as [| x a IH]; simpl; [reflexivity | now rewrite IH]. Qed.

Lemma prefix_false_drop_prefix (p s : string) :
  prefix p s = false -> drop_prefix p s = None.
Proof.
  revert s. induction p as [| c p IH]; intros s H; simpl in *.
  - destruct s; discriminate.
  - destruct s as [| d s]; [reflexivity |].
    cbn [prefix] in H.
    revert H. destruct (ascii_dec c d) as [-> | Hne]; intros H.
    + rewrite Ascii.eqb_refl. now apply IH.
    + apply Ascii.eqb_neq in Hne. now rewrite Hne.
Qed.

Lemma prefix_app (p s : string) : prefix p (p ++ s) = true.
Proof.
  induction p as [| c p IH]; simpl.
  - now destruct s.
  - destruct (ascii_dec c c); [assumption | contradiction].
Qed.

Lemma prefix_true_app (p s : string) :
  prefix p s = true -> exists r, s = p ++ r.
Proof.
  revert s. induction p as [| c p IH]; intros s H; simpl in *.
  - now exists s.
  - destruct s as [| d s]; [discriminate |].
    cbn [prefix] in H.
    revert H. destruct (ascii_dec c d) as [-> | Hne]; intros H;
      [| discriminate].
    destruct (IH s H) as [r ->]. now exists r.
Qed.

Lemma str_contains_eq (sub s : string) :
  str_contains sub s =
  if prefix sub s then true
  else match s with
       | EmptyString => false
       | String _ s' => str_contains sub s'
       end.
Proof. now destruct s. Qed.

Lemma re_search_posts_id_eq (s : string) :
  re_search_posts_id s =
  match match_posts_at s with
  | Some id => Some id
  | None => match s with
            | EmptyString => None
            | String _ s' => re_search_posts_id s'
            end
  end.
Proof. now destruct s. Qed.

(** Given a URL in which "/posts/" does not occur before the segment
    [/posts/<id>/], [re.search] extracts exactly [<id>]. *)
Lemma re_search_posts_id_exact (pre id rest : string) :
  str_contains "/posts/" (pre ++ "/posts") = false ->
  id <> "" -> all_alnum id = true ->
  re_search_posts_id (pre ++ "/posts/" ++ id ++ "/" ++ rest) = Some id.
Proof.
  intros Hpre Hne Hal. induction pre as [| c pre IH].
  - change ("" ++ "/posts/" ++ id ++ "/" ++ rest)
      with ("/posts/" ++ id ++ "/" ++ rest).
    rewrite re_search_posts_id_eq.
    now rewrite (match_posts_at_here id rest Hne Hal).
  - rewrite str_contains_eq in Hpre.
    destruct (prefix "/posts/" (String c pre ++ "/posts")) eqn:Hp;
      [discriminate |].
    change (String c pre ++ "/posts") with (String c (pre ++ "/posts"))
      in Hpre.
    cbv iota in Hpre.
    rewrite re_search_posts_id_eq.
    assert (Hm : match_posts_at
                   (String c pre ++ "/posts/" ++ id ++ "/" ++ rest) = None).
    { unfold match_posts_at.
      change ("/posts/" ++ id ++ "/" ++ rest)
        with ("/posts" ++ "/" ++ id ++ "/" ++ rest).
      rewrite <- str_app_assoc.
      rewrite drop_prefix_None_app; [reflexivity | |].
      - rewrite str_length_app. simpl. lia.
      - now apply prefix_false_drop_prefix. }
    rewrite Hm.
    change (String c pre ++ "/posts/" ++ id ++ "/" ++ rest)
      with (String c (pre ++ "/posts/" ++ id ++ "/" ++ rest)).
    cbv iota. now apply IH.
Qed.

Example re_search_full_url :
  re_search_posts_id
    "https://www.lesswrong.com/posts/pT75MFsLJArrBGkaF/simple-summary-of-ai-safety-laws-1"
  = Some "pT75MFsLJArrBGkaF".
Proof. reflexivity. Qed.

(** The leftmost match wins, so a path that repeats the word is read one
    segment early. *)
Example re_search_posts_posts :
  re_search_posts_id "/posts/posts/pT75MFsLJArrBGkaF/" = Some "posts".
Proof. reflexivity. Qed.

(** A string of seventeen letters and digits passes the ID test and holds
    no URL segment. *)
Lemma all_alnum_no_match (s : string) :
  all_alnum s = true -> re_search_posts_id s = None.
Proof.
  induction s as [| c s IH]; intros H; [reflexivity |].
  simpl in H. apply andb_true_iff in H. destruct H as [Hc Hs].
  rewrite re_search_posts_id_eq.
  assert (Hm : match_posts_at (String c s) = None).
  { unfold match_posts_at. cbn [drop_prefix].
    destruct (Ascii.eqb "/" c) eqn:E; [| reflexivity].
    apply Ascii.eqb_eq in E. subst c. discriminate Hc. }
  rewrite Hm. now apply IH.
Qed.

Lemma substring_all (s : string) : substring 0 (String.length s) s = s.
Proof. induction s as [| c s IH]; simpl; [reflexivity | now rewrite IH]. Qed.

Lemma substring_end (s : string) : substring (String.length s) 0 s = "".
Proof. induction s as [| c s IH]; simpl; [reflexivity | exact IH]. Qed.

Lemma re_match_post_id_17 (s : string) :
  String.length s = 17%nat -> all_alnum s = true ->
  re_match_post_id s = true.
Proof.
  intros Hlen Hal. unfold re_match_post_id.
  rewrite Hlen. change (17 - 17)%nat with 0%nat.
  rewrite <- Hlen at 1 3. rewrite substring_all, Hal.
  rewrite <- Hlen at 2. rewrite substring_end.
  rewrite Hlen. reflexivity.
Qed.

(** The pattern's [$] also holds before a final line feed: the test
    accepts eighteen characters when the last one is a line feed. *)
Example re_match_post_id_newline :
  String.length id_then_newline = 18%nat
  /\ all_alnum id_then_newline = false
  /\ re_match_post_id id_then_newline = true.
Proof. repeat split. Qed.

Lemma re_match_post_id_nonempty (s : string) :
  re_match_post_id s = true -> s <> "".
Proof. intros H ->. discriminate H. Qed.

(** The slug scan, once its query has been answered. *)
Ltac slug_scan_cases srv url :=
  cbv zeta; fold (slug_scan_request url);
  unfold slug_scan_result, results_of, bind, lift, ret, raise;
  destruct (query_result (srv (slug_scan_request url))) as [? |];
    cbn [rbind]; [| reflexivity];
  match goal with
  | |- context [py_get "posts" (JObj []) ?d] =>
      destruct (py_get "posts" (JObj []) d) as [? |];
      cbn [rbind]; [| reflexivity]
  end;
  match goal with
  | |- context [py_get "results" (JArr []) ?d] =>
      destruct (py_get "results" (JArr []) d) as [? |];
      cbn [rbind]; [| reflexivity]
  end;
  match goal with
  | |- context [py_iter ?d] =>
      destruct (py_iter d) as [? |]; cbn [rbind]; [| reflexivity]
  end;
  match goal with
  | |- context [find_r ?f ?l] =>
      destruct (find_r f l) as [[? |] |]; reflexivity
  end.

(** With neither a URL segment nor an ID, the slug scan is the only
    request: up to 1000 posts are fetched and the first whose slug is the
    last path segment of the identifier is returned, a "Post not found"
    error being raised when there is none. *)
Lemma get_post_by_slug_scan (server : request -> response)
      (identifier forum : string) (w : world) (url : string) :
  re_search_posts_id identifier = None ->
  re_match_post_id identifier = false ->
  get_forum_url forum = Ok url ->
  get_post_by_slug server identifier forum w =
  (slug_scan_result identifier (server (slug_scan_request url)),
   after_post w (slug_scan_request url)).
Proof.
  intros Hs Hm Hurl. unfold get_post_by_slug. rewrite Hs, Hm.
  cbn [truthy]. unfold bind at 1. unfold ret at 1.
  unfold bind at 1.
  rewrite (graphql_query_steps server SearchBySlug_query
             (JObj [("limit", JNum 1000)]) forum w url Hurl).
  slug_scan_cases server url.
Qed.

(** With a post ID at hand, from a URL segment or from the identifier
    itself, the ID lookup is the first request; a post it finds is
    returned at once, and when it finds none the slug scan follows. *)
Lemma get_post_by_slug_id_first (server : request -> response)
      (identifier forum : string) (w : world) (url post_id : string) :
  re_search_posts_id identifier = Some post_id
  \/ (re_search_posts_id identifier = None
      /\ re_match_post_id identifier = true /\ post_id = identifier) ->
  get_forum_url forum = Ok url ->
  let req := id_lookup_request url post_id in
  get_post_by_slug server identifier forum w =
  match id_lookup_result (server req) with
  | Raise e => (Raise e, after_post w req)
  | Ok post =>
      if truthy post then (Ok post, after_post w req)
      else (slug_scan_result identifier (server (slug_scan_request url)),
            after_post (after_post w req) (slug_scan_request url))
  end.
Proof.
  intros Hcase Hurl req.
  assert (Hid : (match re_search_posts_id identifier with
                 | Some id => JStr id
                 | None => if re_match_post_id identifier
                           then JStr identifier else JNull
                 end) = JStr post_id).
  { destruct Hcase as [-> | (-> & -> & ->)]; reflexivity. }
  assert (Hne : truthy (JStr post_id) = true).
  { destruct Hcase as [Hs | (_ & Hm & ->)].
    - apply re_search_posts_id_sound in Hs.
      destruct Hs as (_ & _ & _ & Hne & _).
      destruct post_id; [contradiction | reflexivity].
    - apply re_match_post_id_nonempty in Hm.
      destruct identifier; [contradiction | reflexivity]. }
  unfold get_post_by_slug. rewrite Hid, Hne.
  unfold bind at 1. unfold bind at 1.
  rewrite (graphql_query_steps server GetPostById_query
             (JObj [("documentId", JStr post_id)]) forum w url Hurl).
  cbv zeta. fold (id_lookup_request url post_id). fold req.
  unfold id_lookup_result.
  destruct (query_result (server req)) as [data |]; cbn [rbind];
    [| reflexivity].
  unfold bind at 1, lift at 1.
  destruct (py_get "post" (JObj []) data) as [post_ |]; cbn [rbind];
    [| reflexivity].
  unfold bind at 1, lift at 1.
  destruct (py_get "result" JNull post_) as [post |]; [| reflexivity].
  unfold ret at 1.
  destruct (truthy post) eqn:Hp; [reflexivity |].
  unfold bind at 1.
  rewrite (graphql_query_steps server SearchBySlug_query
             (JObj [("limit", JNum 1000)]) forum (after_post w req)
             url Hurl).
  slug_scan_cases server url.
Qed.

Lemma find_r_find (test : value -> result bool) (f : value -> bool)
      (l : list value) :
  Forall (fun x => test x = Ok (f x)) l -> find_r test l = Ok (find f l).
Proof.
  induction 1 as [| x l Hx _ IH]; simpl; [reflexivity |].
  rewrite Hx. cbn [rbind]. now destruct (f x).
Qed.

Lemma slug_is_dict (slug : string) (post : value) :
  is_dict post -> slug_is slug post = Ok (post_slug_is slug post).
Proof.
  destruct post; try contradiction. intros _.
  unfold slug_is, py_get, post_slug_is.
  destruct (dict_get "slug" fields) as [[] |]; reflexivity.
Qed.

(** On a reply that lists posts, the slug scan returns the first post whose
    slug is the last path segment of the identifier, and raises "Post not
    found" when there is none. *)
Lemma slug_scan_result_find (identifier : string) (r : response)
      (data : value) (posts : list value) :
  query_result r = Ok data ->
  results_of "posts" data = Ok (JArr posts) ->
  Forall is_dict posts ->
  slug_scan_result identifier r =
  match find (post_slug_is (last (split_char "/" identifier) "")) posts with
  | Some post => Ok post
  | None => Raise (Exception_ ("Post not found: " ++ identifier))
  end.
Proof.
  intros Hq Hr Hd. unfold slug_scan_result. rewrite Hq. cbn [rbind].
  rewrite Hr. cbn [rbind py_iter].
  rewrite (find_r_find _ (post_slug_is (last (split_char "/" identifier) ""))).
  - reflexivity.
  - eapply Forall_impl; [| exact Hd]. intros p Hp. now apply slug_is_dict.
Qed.

Example last_segment_of_url :
  last (split_char "/" "https://www.lesswrong.com/posts/abc/my-slug") ""
  = "my-slug".
Proof. reflexivity. Qed.

(** C5, at an identifier of eighteen characters that ends in a line feed:
    it holds no URL segment and is not a 17-character ID, yet the ID test
    lets it through, and the ID lookup is sent before the slug scan. *)
Theorem get_post_by_slug_newline_id_lookup :
  String.length id_then_newline = 18%nat
  /\ all_alnum id_then_newline = false
  /\ re_search_posts_id id_then_newline = None
  /\ sent (snd (get_post_by_slug (const_server 200 (Some (JObj empty_reply)))
                                 id_then_newline "lesswrong" fresh_world))
     = [id_lookup_request lesswrong_url id_then_newline;
        slug_scan_request lesswrong_url].
Proof. repeat split; reflexivity. Qed.

(** The same identifier without the line feed: one ID lookup, as C5 says. *)
Example get_post_by_slug_plain_id :
  sent (snd (get_post_by_slug
               (const_server 200
                  (Some (JObj [("data",
                                JObj [("post",
                                       JObj [("result",
                                              JObj [("_id", JStr "pT75MFsLJArrBGkaF")])])])])))
               "pT75MFsLJArrBGkaF" "lesswrong" fresh_world))
  = [id_lookup_request lesswrong_url "pT75MFsLJArrBGkaF"].
Proof. reflexivity. Qed.

(** ** The date filter *)

Lemma filter_r_filter (keep : value -> result bool) (f : value -> bool)
      (l : list value) :
  Forall (fun x => keep x = Ok (f x)) l -> filter_r keep l = Ok (filter f l).
Proof.
  induction 1 as [| x l Hx _ IH]; simpl; [reflexivity |].
  rewrite Hx, IH. reflexivity.
Qed.

Lemma posted_since_comparable (fromisoformat : string -> option datetime)
      (cutoff : datetime) (item : value) :
  comparable fromisoformat cutoff item ->
  posted_since fromisoformat cutoff item
  = Ok (on_or_after fromisoformat cutoff item).
Proof.
  intros (d & Hts & Haw). unfold on_or_after. rewrite Hts.
  unfold timestamp_of in Hts. unfold posted_since.
  destruct item; try discriminate. cbn [py_getitem].
  destruct (dict_get "postedAt" fields) as [[] |]; try discriminate.
  cbn [rbind py_str_replace]. rewrite Hts.
  unfold dt_ge. rewrite Haw, Bool.eqb_reflx. reflexivity.
Qed.

(** The filtering step keeps exactly the items posted at the cutoff or
    later, in their order. *)
Lemma filter_since_exact (fromisoformat : string -> option datetime)
      (cutoff : datetime) (items : list value) :
  Forall (comparable fromisoformat cutoff) items ->
  filter_r (posted_since fromisoformat cutoff) items
  = Ok (filter (on_or_after fromisoformat cutoff) items).
Proof.
  intros H. apply filter_r_filter.
  eapply Forall_impl; [| exact H].
  intros item Hc. now apply posted_since_comparable.
Qed.

(** The three fetches share their last steps: read the results of the
    reply, then filter them by date. *)
Ltac fetch_then_filter Hq Hres Hcmp :=
  unfold bind; rewrite Hq; unfold lift, results_of in *;
  match type of Hres with
  | rbind ?g _ = _ =>
      destruct g as [inner |]; cbn [rbind] in Hres; [| discriminate Hres]
  end;
  rewrite Hres; cbn [py_iter];
  rewrite (filter_since_exact _ _ _ Hcmp); reflexivity.

(** C6. The client-side date filter is inclusive at the boundary: when the
    reply lists items whose [postedAt] can be compared with the cutoff,
    [get_user_posts], [get_user_comments] and [get_posts_by_tag] return
    exactly the items posted at the cutoff or later, in the order fetched;
    an item posted exactly at the cutoff is among them. *)
Theorem date_filter_inclusive
        (server : request -> response)
        (fromisoformat : string -> option datetime)
        (cutoff : datetime) (items : list value) :
  Forall (comparable fromisoformat cutoff) items ->
  let kept := filter (on_or_after fromisoformat cutoff) items in
  (forall user_id limit forum w data w',
      graphql_query server GetUserPosts_query
        (JObj [("userId", user_id); ("limit", limit)]) forum w = (Ok data, w') ->
      results_of "posts" data = Ok (JArr items) ->
      get_user_posts server fromisoformat user_id (Some cutoff) limit forum w
      = (Ok (JArr kept), w'))
  /\ (forall user_id limit forum w data w',
      graphql_query server GetUserComments_query
        (JObj [("userId", user_id); ("limit", limit)]) forum w = (Ok data, w') ->
      results_of "comments" data = Ok (JArr items) ->
      get_user_comments server fromisoformat user_id (Some cutoff) limit
                        forum w
      = (Ok (JArr kept), w'))
  /\ (forall tag_id limit forum w data w',
      graphql_query server GetTagPosts_query
        (JObj [("tagId", tag_id); ("limit", limit)]) forum w = (Ok data, w') ->
      results_of "posts" data = Ok (JArr items) ->
      get_posts_by_tag server fromisoformat tag_id (Some cutoff) limit forum w
      = (Ok (JArr kept), w'))
  /\ (forall item,
         In item kept <->
         In item items
         /\ exists d, timestamp_of fromisoformat item = Some d
                      /\ dt_micros cutoff <= dt_micros d)
  /\ (forall item d,
         In item items -> timestamp_of fromisoformat item = Some d ->
         dt_micros d = dt_micros cutoff -> In item kept).
Proof.
  intros Hcmp kept. subst kept.
  assert (Hin : forall item,
             In item (filter (on_or_after fromisoformat cutoff) items) <->
             In item items
             /\ exists d, timestamp_of fromisoformat item = Some d
                          /\ dt_micros cutoff <= dt_micros d).
  { intros item. rewrite filter_In. unfold on_or_after.
    split; intros [Hi H]; (split; [exact Hi |]).
    - destruct (timestamp_of fromisoformat item) as [d |]; [| discriminate].
      exists d. split; [reflexivity | now apply Z.leb_le].
    - destruct H as (d & -> & Hle). now apply Z.leb_le. }
  split; [| split; [| split; [| split]]].
  - intros user_id limit forum w data w' Hq Hres.
    unfold get_user_posts. fetch_then_filter Hq Hres Hcmp.
  - intros user_id limit forum w data w' Hq Hres.
    unfold get_user_comments. fetch_then_filter Hq Hres Hcmp.
  - intros tag_id limit forum w data w' Hq Hres.
    unfold get_posts_by_tag. fetch_then_filter Hq Hres Hcmp.
  - exact Hin.
  - intros item d Hi Hts Heq. apply Hin. split; [exact Hi |].
    exists d. split; [exact Hts | lia].
Qed.

Lemma date_filter_inclusive_witness :
  Forall (comparable iso_table cutoff_2024_03_10)
         [post_after; post_at_cutoff; post_before]
  /\ fst (get_user_posts posts_server iso_table (JStr "u1")
                         (Some cutoff_2024_03_10) (JNum 50) "lesswrong"
                         fresh_world)
     = Ok (JArr [post_after; post_at_cutoff]).
Proof.
  assert (H : Forall (comparable iso_table cutoff_2024_03_10)
                     [post_after; post_at_cutoff; post_before]).
  { repeat constructor; eexists; split; reflexivity. }
  split; [exact H |].
  pose proof (date_filter_inclusive posts_server iso_table
                cutoff_2024_03_10 _ H) as T.
  cbv zeta in T. destruct T as (Hposts & _).
  rewrite (Hposts (JStr "u1") (JNum 50) "lesswrong" fresh_world posts_reply
             (after_post fresh_world
                (graphql_post lesswrong_url GetUserPosts_query
                   (JObj [("userId", JStr "u1"); ("limit", JNum 50)]) []))).
  - reflexivity.
  - reflexivity.
  - reflexivity.
Defined.

(** ** Drafts *)

(** With a token at hand the authenticated query is one POST, the token
    going along as the [loginToken] cookie. *)
Lemma graphql_query_authenticated_steps (server : request -> response)
      (query : string) (variables : value) (forum : string) (w : world)
      (token : value) (url : string) :
  get_auth_token forum w = (Ok token, w) ->
  truthy token = true ->
  get_forum_url forum = Ok url ->
  let req := graphql_post url query variables [("loginToken", token)] in
  graphql_query_authenticated server query variables forum w =
  (query_result (server req), after_post w req).
Proof.
  intros Htok Htruthy Hurl req. subst req.
  unfold graphql_query_authenticated. unfold bind at 1.
  rewrite Htok, Htruthy. cbn [negb].
  unfold query_result, bind, lift. rewrite Hurl.
  unfold graphql_post, query_payload, after_post, requests_post, ret, raise.
  destruct (truthy variables);
    cbn [py_setitem dict_set String.eqb Ascii.eqb Bool.eqb];
    match goal with
    | |- context [raise_for_status ?r] =>
        destruct (raise_for_status r); cbn [rbind]; [| reflexivity];
        destruct (response_json r) as [data |]; cbn [rbind]; [| reflexivity];
        destruct (py_contains "errors" data) as [[|] |]; cbn [rbind];
        try reflexivity;
        now destruct (py_getitem "errors" data)
    end.
Qed.

(** What [create_draft_post] sends and returns, in closed form. *)
Lemma create_draft_post_steps (server : request -> response)
      (title contents_markdown : value) (forum : string)
      (url question : value) (w : world) (token : value)
      (forum_url : string) :
  get_auth_token forum w = (Ok token, w) ->
  truthy token = true ->
  get_forum_url forum = Ok forum_url ->
  let req :=
    graphql_post forum_url CreatePost_query
      (JObj [("data",
              JObj (draft_data title contents_markdown url question))])
      [("loginToken", token)] in
  create_draft_post server title contents_markdown forum url question w =
  (rbind (query_result (server req)) (fun data =>
   rbind (py_get "createPost" (JObj []) data) (py_get "data" JNull)),
   after_post w req).
Proof.
  intros Htok Htruthy Hurl req. subst req.
  unfold create_draft_post, draft_data.
  unfold bind, lift, ret.
  destruct (truthy url), (truthy question);
    cbn [py_setitem2 py_getitem py_setitem dict_get dict_set rbind
         String.eqb Ascii.eqb Bool.eqb app];
    match goal with
    | |- context [graphql_query_authenticated server ?q ?v forum w] =>
        rewrite (graphql_query_authenticated_steps server q v forum w
                   token forum_url Htok Htruthy Hurl)
    end;
    cbv zeta;
    match goal with
    | |- context [query_result ?r] =>
        destruct (query_result r) as [data |]; cbn [rbind]; [| reflexivity];
        destruct (py_get "createPost" (JObj []) data); reflexivity
    end.
Qed.

(** C8. [create_draft_post] with a title and markdown content posts, for a
    forum with a token, one mutation whose variables hold a [data] object
    with [draft: true], [submitToFrontpage: true] and, under
    [contents.originalContents], the type "markdown" beside the markdown
    string as it was given. *)
Theorem create_draft_payload (server : request -> response)
        (title contents_markdown : value) (forum : string)
        (url question : value) (w : world) (token : value)
        (forum_url : string) :
  get_auth_token forum w = (Ok token, w) ->
  truthy token = true ->
  get_forum_url forum = Ok forum_url ->
  exists data,
    sent (snd (create_draft_post server title contents_markdown forum
                                 url question w))
    = (sent w ++
       [ {| req_url := forum_url;
            req_json := JObj [("query", JStr CreatePost_query);
                              ("variables", JObj [("data", JObj data)])];
            req_headers := [("Content-Type", "application/json")];
            req_cookies := [("loginToken", token)] |} ])%list
    /\ dict_get "title" data = Some title
    /\ dict_get "draft" data = Some (JBool true)
    /\ dict_get "submitToFrontpage" data = Some (JBool true)
    /\ dict_get "contents" data
       = Some (JObj [("originalContents",
                      JObj [("type", JStr "markdown");
                            ("data", contents_markdown)])]).
Proof.
  intros Htok Htruthy Hurl.
  exists (draft_data title contents_markdown url question).
  rewrite (create_draft_post_steps server title contents_markdown forum
             url question w token forum_url Htok Htruthy Hurl).
  repeat split.
Qed.

Lemma create_draft_payload_witness :
  exists data,
    sent (snd (create_draft_post (const_server 200 (Some (JObj empty_reply)))
                                 (JStr "T") (JStr "C") "lesswrong"
                                 JNull (JBool false) lw_world))
    = [ {| req_url := lesswrong_url;
           req_json := JObj [("query", JStr CreatePost_query);
                             ("variables", JObj [("data", JObj data)])];
           req_headers := [("Content-Type", "application/json")];
           req_cookies := [("loginToken", JStr "s3cret")] |} ]
    /\ dict_get "title" data = Some (JStr "T")
    /\ dict_get "draft" data = Some (JBool true)
    /\ dict_get "submitToFrontpage" data = Some (JBool true)
    /\ dict_get "contents" data
       = Some (JObj [("originalContents",
                      JObj [("type", JStr "markdown");
                            ("data", JStr "C")])]).
Proof.
  apply (create_draft_payload (const_server 200 (Some (JObj empty_reply)))
           (JStr "T") (JStr "C") "lesswrong" JNull (JBool false) lw_world
           (JStr "s3cret") lesswrong_url).
  - reflexivity.
  - reflexivity.
  - reflexivity.
Defined.

(** ** Tag search *)

(** [sub in s] holds exactly when [sub] occurs in [s]. *)
Lemma str_contains_spec (sub s : string) :
  str_contains sub s = true <-> exists pre post, s = pre ++ sub ++ post.
Proof.
  split.
  - induction s as [| c s IH]; rewrite str_contains_eq.
    + destruct (prefix sub "") eqn:Hp; [| discriminate].
      intros _. apply prefix_true_app in Hp. destruct Hp as [r Hr].
      now exists "", r.
    + destruct (prefix sub (String c s)) eqn:Hp.
      * intros _. apply prefix_true_app in Hp. destruct Hp as [r Hr].
        now exists "", r.
      * intros H. destruct (IH H) as (pre & post & ->).
        now exists (String c pre), post.
  - intros (pre & post & ->). induction pre as [| c pre IH].
    + rewrite str_contains_eq. change ("" ++ sub ++ post) with (sub ++ post).
      now rewrite prefix_app.
    + rewrite str_contains_eq.
      change (String c pre ++ sub ++ post)
        with (String c (pre ++ sub ++ post)).
      destruct (prefix sub (String c (pre ++ sub ++ post)));
        [reflexivity | exact IH].
Qed.

Lemma name_matches_named (query_str : string) (t : value) :
  named t -> name_matches (lower query_str) t = Ok (name_has query_str t).
Proof.
  intros [n Hn]. unfold name_has. rewrite Hn.
  unfold tag_name in Hn. unfold name_matches.
  destruct t; try discriminate. cbn [py_getitem].
  destruct (dict_get "name" fields) as [[] |]; try discriminate.
  injection Hn as ->. reflexivity.
Qed.

Lemma slice_to_nonneg {A} (limit : Z) (l : list A) :
  0 <= limit -> slice_to limit l = firstn (Z.to_nat limit) l.
Proof.
  intros H. unfold slice_to.
  destruct (0 <=? limit)%Z eqn:E; [reflexivity |].
  apply Z.leb_gt in E. lia.
Qed.

(** A negative limit counts from the end, as every Python slice does. *)
Example slice_to_negative : slice_to (-1) [1; 2; 3] = [1; 2].
Proof. reflexivity. Qed.

(** C9. [search_tags] returns exactly the fetched tags whose name contains
    the query string, letter case aside, in the order fetched and cut to
    the first [limit] of them, for a limit that is not negative and a reply
    that lists tags with names. *)
Theorem search_tags_exact (server : request -> response)
        (query_str : string) (limit : Z) (forum : string) (w : world)
        (data : value) (w' : world) (tags : list value) :
  graphql_query server SearchTags_query (JObj [("limit", JNum 200)]) forum w
  = (Ok data, w') ->
  results_of "tags" data = Ok (JArr tags) ->
  Forall named tags ->
  0 <= limit ->
  search_tags server query_str limit forum w
  = (Ok (firstn (Z.to_nat limit) (filter (name_has query_str) tags)), w')
  /\ (forall t,
         name_has query_str t = true <->
         exists n pre post,
           tag_name t = Some n /\ lower n = pre ++ lower query_str ++ post).
Proof.
  intros Hq Hres Hnamed Hlimit. split.
  - unfold search_tags, bind. rewrite Hq.
    unfold lift, results_of in *.
    destruct (py_get "tags" (JObj []) data) as [inner |];
      cbn [rbind] in Hres; [| discriminate Hres].
    rewrite Hres. cbn [py_iter].
    rewrite (filter_r_filter _ (name_has query_str)).
    + unfold ret. now rewrite slice_to_nonneg.
    + eapply Forall_impl; [| exact Hnamed].
      intros t Ht. now apply name_matches_named.
  - intros t. unfold name_has. split.
    + destruct (tag_name t) as [n |]; [| discriminate].
      intros H. apply str_contains_spec in H.
      destruct H as (pre & post & H). now exists n, pre, post.
    + intros (n & pre & post & -> & H). apply str_contains_spec.
      now exists pre, post.
Qed.

Lemma search_tags_exact_witness :
  Forall named [tag_ai_alignment; tag_epistemology]
  /\ fst (search_tags tags_server "alignment" 10 "lesswrong" fresh_world)
     = Ok [tag_ai_alignment].
Proof.
  assert (H : Forall named [tag_ai_alignment; tag_epistemology]).
  { repeat constructor; eexists; reflexivity. }
  split; [exact H |].
  destruct (search_tags_exact tags_server "alignment" 10 "lesswrong"
              fresh_world tags_reply
              (after_post fresh_world
                 (graphql_post lesswrong_url SearchTags_query
                    (JObj [("limit", JNum 200)]) []))
              [tag_ai_alignment; tag_epistemology]
              eq_refl eq_refl H) as [E _].
  - lia.
  - rewrite E. reflexivity.
Defined.

(** * Further properties *)

(** ** The registry *)

Ltac split_registry :=
  repeat match goal with
         | H : In _ FORUMS |- _ => unfold FORUMS in H; simpl in H
         | H : In _ forum_keys |- _ => unfold forum_keys in H; simpl in H
         | H : In _ (aliases _) |- _ => progress simpl in H
         | H : _ \/ _ |- _ => destruct H
         | H : (_, _) = (_, _) |- _ => inversion H; clear H; subst
         | H : False |- _ => destruct H
         end.

(** X1. [resolve_forum] returns a key exactly when the lower-cased input,
    white space at both ends removed, is that key or one of the aliases
    listed for it; no alias leads to two forums. *)
Theorem resolve_forum_characterization (s key : string) :
  resolve_forum s = Ok key <->
  (strip (lower s) = key /\ In key forum_keys)
  \/ (exists config,
         In (key, config) FORUMS /\ In (strip (lower s)) (aliases config)).
Proof.
  unfold resolve_forum. generalize (strip (lower s)). intros x. split.
  - destruct (existsb (String.eqb x) forum_keys) eqn:Hk.
    + intros [= ->]. left. split; [reflexivity |].
      now apply existsb_eqb_In.
    + destruct (find _ FORUMS) as [[k c] |] eqn:Hf; [| discriminate].
      intros [= ->]. apply find_some in Hf. destruct Hf as [Hin Hal].
      right. exists c. split; [exact Hin |].
      now apply existsb_eqb_In.
  - intros [[-> Hin] | (c & Hin & Hal)].
    + apply existsb_eqb_In in Hin. now rewrite Hin.
    + split_registry; subst; reflexivity.
Qed.

Lemma resolve_forum_in_keys (s key : string) :
  resolve_forum s = Ok key -> In key forum_keys.
Proof.
  intros H. unfold resolve_forum in H.
  destruct (existsb _ forum_keys) eqn:Hk.
  - injection H as <-. now apply existsb_eqb_In.
  - destruct (find _ FORUMS) as [[k c] |] eqn:Hf; [| discriminate].
    injection H as ->. apply find_some in Hf. destruct Hf as [Hf _].
    unfold forum_keys. change key with (fst (key, c)). now apply in_map.
Qed.

(** X2. What [resolve_forum] returns is always a key of the registry, and
    resolving it again gives it back. *)
Theorem resolve_forum_canonical (s key : string) :
  resolve_forum s = Ok key ->
  In key forum_keys /\ resolve_forum key = Ok key.
Proof.
  intros H. apply resolve_forum_in_keys in H.
  split; [exact H |].
  split_registry; subst; reflexivity.
Qed.

Lemma resolve_forum_canonical_witness :
  resolve_forum " EA-Forum " = Ok "eaforum"
  /\ In "eaforum" forum_keys /\ resolve_forum "eaforum" = Ok "eaforum".
Proof.
  split; [reflexivity |].
  apply (resolve_forum_canonical " EA-Forum " "eaforum").
  reflexivity.
Defined.

(** X3. The two URL lookups fail only as [resolve_forum] fails, never on
    the table; for a name that resolves they give the URLs of that forum,
    and the GraphQL URL is the base URL followed by "/graphql". *)
Theorem forum_urls_of_resolution (s : string) :
  match resolve_forum s with
  | Raise e => get_forum_url s = Raise e /\ get_forum_base_url s = Raise e
  | Ok key =>
      exists config,
        In (key, config) FORUMS
        /\ get_forum_url s = Ok (url config)
        /\ get_forum_base_url s = Ok (base_url config)
        /\ url config = base_url config ++ "/graphql"
  end.
Proof.
  unfold get_forum_url, get_forum_base_url.
  destruct (resolve_forum s) as [key | e] eqn:H; [| now split].
  apply resolve_forum_in_keys in H. rename H into Hin.
  cbn [rbind].
  split_registry; subst;
    eexists; (split; [| split; [| split]]);
    try reflexivity; simpl; auto.
Qed.

(** ** The token store, further *)

(** X4. [save_auth_token] writes the file as its last step: whenever it
    raises, for an unknown forum, a file that is not JSON or a config of
    the wrong shape, the config file and the log of requests are as they
    were. *)
Theorem save_auth_token_failure_writes_nothing
        (forum : string) (token : value) (w : world) (e : exn) :
  fst (save_auth_token forum token w) = Raise e ->
  snd (save_auth_token forum token w) = w.
Proof.
  intros H.
  destruct (save_auth_token forum token w) as [r w'] eqn:E.
  cbn [fst snd] in *. subst r.
  exact (save_auth_token_raise forum token w e w' E).
Qed.

Lemma save_auth_token_failure_writes_nothing_witness :
  fst (save_auth_token "lw" (JStr "s3cret") null_auth_world) = Raise TypeError
  /\ snd (save_auth_token "lw" (JStr "s3cret") null_auth_world)
     = null_auth_world.
Proof.
  split; [reflexivity |].
  apply (save_auth_token_failure_writes_nothing
           "lw" (JStr "s3cret") null_auth_world TypeError).
  reflexivity.
Defined.

(** The world after a save that succeeds can be loaded again, and its
    [auth] is a dict. *)
Lemma save_auth_token_reloads (forum : string) (token : value) (w : world)
      (config auth : dict) (key : string) :
  load_config w = (Ok (JObj config), w) ->
  auth_of config = Some auth ->
  resolve_forum forum = Ok key ->
  let config' :=
    dict_set "auth" (JObj (dict_set (fold_key key) token auth)) config in
  let w' := snd (save_auth_token forum token w) in
  load_config w' = (Ok (JObj config'), w')
  /\ auth_of config' = Some (dict_set (fold_key key) token auth)
  /\ sent w' = sent w.
Proof.
  intros Hload Hauth Hres config' w'. subst w'.
  rewrite (save_auth_token_writes forum token w config auth key
             Hload Hauth Hres).
  cbn [snd]. split; [reflexivity | split; [| reflexivity]].
  subst config'. unfold auth_of. now rewrite dict_get_set_same.
Qed.

(** X5. The last write wins: saving a token and then another one under a
    name that folds to the same key leaves the config file exactly as the
    second save alone would. *)
Theorem save_auth_token_last_write_wins
        (f1 f2 : string) (t1 t2 : value) (w : world)
        (config auth : dict) (k1 k2 : string) :
  load_config w = (Ok (JObj config), w) ->
  auth_of config = Some auth ->
  resolve_forum f1 = Ok k1 -> resolve_forum f2 = Ok k2 ->
  fold_key k1 = fold_key k2 ->
  snd (save_auth_token f2 t2 (snd (save_auth_token f1 t1 w)))
  = snd (save_auth_token f2 t2 w).
Proof.
  intros Hload Hauth H1 H2 Hfold.
  destruct (save_auth_token_reloads f1 t1 w config auth k1 Hload Hauth H1)
    as (Hload' & Hauth' & Hsent).
  rewrite (save_auth_token_writes f2 t2 _ _ _ k2 Hload' Hauth' H2).
  rewrite (save_auth_token_writes f2 t2 w config auth k2 Hload Hauth H2).
  cbn [snd]. rewrite Hsent, Hfold, !dict_set_set. reflexivity.
Qed.

Lemma save_auth_token_last_write_wins_witness :
  snd (save_auth_token "lesswrong" (JStr "new")
         (snd (save_auth_token "af" (JStr "old") ea_world)))
  = snd (save_auth_token "lesswrong" (JStr "new") ea_world).
Proof.
  apply (save_auth_token_last_write_wins
           "af" "lesswrong" (JStr "old") (JStr "new") ea_world ea_config
           [("eaforum", JStr "ea-token")] "alignmentforum" "lesswrong");
    reflexivity.
Defined.

(** X6. Tokens of forums that fold to different keys do not disturb each
    other: after a save for one and then a save for the other, each lookup
    returns its own token. *)
Theorem save_auth_token_keeps_other_forum
        (f1 f2 : string) (t1 t2 : value) (w : world)
        (config auth : dict) (k1 k2 : string) :
  load_config w = (Ok (JObj config), w) ->
  auth_of config = Some auth ->
  resolve_forum f1 = Ok k1 -> resolve_forum f2 = Ok k2 ->
  fold_key k1 <> fold_key k2 ->
  let w2 := snd (save_auth_token f2 t2 (snd (save_auth_token f1 t1 w))) in
  get_auth_token f1 w2 = (Ok t1, w2) /\ get_auth_token f2 w2 = (Ok t2, w2).
Proof.
  intros Hload Hauth H1 H2 Hne w2.
  destruct (save_auth_token_reloads f1 t1 w config auth k1 Hload Hauth H1)
    as (Hload1 & Hauth1 & _).
  destruct (save_auth_token_reloads f2 t2 _ _ _ k2 Hload1 Hauth1 H2)
    as (Hload2 & Hauth2 & _).
  fold w2 in Hload2. split.
  - rewrite (get_auth_token_reads f1 w2 _ _ k1 Hload2 Hauth2 H1).
    rewrite dict_get_set_other by exact Hne.
    now rewrite dict_get_set_same.
  - rewrite (get_auth_token_reads f2 w2 _ _ k2 Hload2 Hauth2 H2).
    now rewrite dict_get_set_same.
Qed.

Lemma save_auth_token_keeps_other_forum_witness :
  get_auth_token "ea"
    (snd (save_auth_token "af" (JStr "lw-token")
            (snd (save_auth_token "ea" (JStr "ea-token") fresh_world))))
  = (Ok (JStr "ea-token"),
     snd (save_auth_token "af" (JStr "lw-token")
            (snd (save_auth_token "ea" (JStr "ea-token") fresh_world))))
  /\ get_auth_token "af"
       (snd (save_auth_token "af" (JStr "lw-token")
               (snd (save_auth_token "ea" (JStr "ea-token") fresh_world))))
     = (Ok (JStr "lw-token"),
        snd (save_auth_token "af" (JStr "lw-token")
               (snd (save_auth_token "ea" (JStr "ea-token") fresh_world)))).
Proof.
  apply (save_auth_token_keeps_other_forum
           "ea" "af" (JStr "ea-token") (JStr "lw-token") fresh_world
           default_config [] "eaforum" "alignmentforum");
    try reflexivity.
  discriminate.
Defined.

(** X7. The defaults reach the disk with the first token: on a world
    without a config file, a save writes the three default settings in
    their order, followed by an [auth] dict that holds only the token. *)
Theorem first_save_persists_defaults
        (forum : string) (token : value) (w : world) (key : string) :
  config_file w = NoFile ->
  resolve_forum forum = Ok key ->
  save_auth_token forum token w =
  (Ok (fold_key key),
   {| config_file :=
        JsonFile (JObj [("subscriptions", JArr []);
                        ("digest_days", JNum 7);
                        ("output_dir", JStr "digests");
                        ("auth", JObj [(fold_key key, token)])]);
      sent := sent w |}).
Proof.
  intros Hfile Hres.
  assert (Hload : load_config w = (Ok (JObj default_config), w)).
  { unfold load_config. now rewrite Hfile. }
  rewrite (save_auth_token_writes forum token w default_config [] key
             Hload eq_refl Hres).
  reflexivity.
Qed.

Lemma first_save_persists_defaults_witness :
  save_auth_token "LW" (JStr "s3cret") fresh_world =
  (Ok "lesswrong",
   {| config_file :=
        JsonFile (JObj [("subscriptions", JArr []);
                        ("digest_days", JNum 7);
                        ("output_dir", JStr "digests");
                        ("auth", JObj [("lesswrong", JStr "s3cret")])]);
      sent := [] |}).
Proof.
  apply (first_save_persists_defaults "LW" (JStr "s3cret") fresh_world
           "lesswrong"); reflexivity.
Defined.

(** X8. Without a config file no forum has a token: the lookup gives
    [None] for every name that resolves and the resolver's error for every
    other name, and in no case does it write the file or send a request. *)
Theorem get_auth_token_without_file (forum : string) (w : world) :
  config_file w = NoFile ->
  get_auth_token forum w =
  (match resolve_forum forum with
   | Ok _ => Ok JNull
   | Raise e => Raise e
   end, w).
Proof.
  intros Hfile. unfold get_auth_token, bind, load_config, lift.
  rewrite Hfile. cbn [py_get dict_get default_config String.eqb Ascii.eqb
                      Bool.eqb].
  now destruct (resolve_forum forum).
Qed.

Lemma get_auth_token_without_file_witness :
  get_auth_token "af" fresh_world = (Ok JNull, fresh_world).
Proof.
  apply (get_auth_token_without_file "af" fresh_world). reflexivity.
Defined.

(** ** The dispatcher, further *)

Ltac unknown_forum_step srv forum w e H :=
  unfold bind, ret;
  rewrite ?(graphql_query_unknown_forum srv _ _ forum w e H);
  reflexivity.

(** X9. A forum name that does not resolve stops every read operation
    before the network: each one raises the resolver's error and no POST
    is sent. *)
Theorem unknown_forum_sends_nothing
        (server : request -> response)
        (fromisoformat : string -> option datetime)
        (forum : string) (w : world) (e : exn) :
  resolve_forum forum = Raise e ->
  (forall query variables,
      graphql_query server query variables forum w = (Raise e, w))
  /\ (forall identifier,
         get_post_by_slug server identifier forum w = (Raise e, w))
  /\ (forall query_str limit,
         search_posts server query_str limit forum w = (Raise e, w))
  /\ (forall slug, get_user_by_slug server slug forum w = (Raise e, w))
  /\ (forall user_id since_date limit,
         get_user_posts server fromisoformat user_id since_date limit forum w
         = (Raise e, w))
  /\ (forall user_id since_date limit,
         get_user_comments server fromisoformat user_id since_date limit
                           forum w
         = (Raise e, w))
  /\ (forall slug, get_tag_by_slug server slug forum w = (Raise e, w))
  /\ (forall query_str limit,
         search_tags server query_str limit forum w = (Raise e, w))
  /\ (forall tag_id since_date limit,
         get_posts_by_tag server fromisoformat tag_id since_date limit forum w
         = (Raise e, w)).
Proof.
  intros H. repeat split; intros.
  - exact (graphql_query_unknown_forum server query variables forum w e H).
  - unfold get_post_by_slug.
    destruct (truthy _); unknown_forum_step server forum w e H.
  - unfold search_posts. unknown_forum_step server forum w e H.
  - unfold get_user_by_slug. unknown_forum_step server forum w e H.
  - unfold get_user_posts. unknown_forum_step server forum w e H.
  - unfold get_user_comments. unknown_forum_step server forum w e H.
  - unfold get_tag_by_slug. unknown_forum_step server forum w e H.
  - unfold search_tags. unknown_forum_step server forum w e H.
  - unfold get_posts_by_tag. unknown_forum_step server forum w e H.
Qed.

Lemma unknown_forum_sends_nothing_witness :
  get_post_by_slug posts_server "some-slug" "reddit" fresh_world
  = (Raise (ValueError (unknown_forum_message "reddit")), fresh_world)
  /\ search_tags posts_server "alignment" 10 "reddit" fresh_world
     = (Raise (ValueError (unknown_forum_message "reddit")), fresh_world).
Proof.
  destruct (unknown_forum_sends_nothing
              posts_server iso_table "reddit" fresh_world
              (ValueError (unknown_forum_message "reddit")) eq_refl)
    as (_ & Hpost & _ & _ & _ & _ & _ & Htags & _).
  split; [apply Hpost | apply Htags].
Defined.

(** X10. [graphql_query] returns only what an object body licenses: when
    it returns a value, the reply had a status outside 400..599 and a body
    that is a JSON object without an [errors] key, and the value is that
    object's [data], or an empty mapping when it has none. *)
Theorem graphql_query_returns_object_data
        (server : request -> response) (query : string) (variables : value)
        (forum : string) (w : world) (url : string) (v : value) :
  get_forum_url forum = Ok url ->
  fst (graphql_query server query variables forum w) = Ok v ->
  exists reply,
    body (server (graphql_post url query variables [])) = Some (JObj reply)
    /\ dict_get "errors" reply = None
    /\ ~ (400 <= status_code (server (graphql_post url query variables []))
          < 600)
    /\ v = match dict_get "data" reply with
           | Some data => data
           | None => JObj []
           end.
Proof.
  intros Hurl.
  rewrite (graphql_query_steps server query variables forum w url Hurl).
  cbv zeta. cbn [fst].
  set (r := server (graphql_post url query variables [])).
  unfold query_result, raise_for_status, response_json.
  destruct ((400 <=? status_code r)%Z && (status_code r <? 600)%Z) eqn:Hst;
    cbn [rbind]; [discriminate |].
  assert (Hout : ~ (400 <= status_code r < 600)).
  { intros [Hlo Hhi]. apply Z.leb_le in Hlo. apply Z.ltb_lt in Hhi.
    rewrite Hlo, Hhi in Hst. discriminate Hst. }
  destruct (body r) as [[| b | n | s | items | reply] |];
    cbn [rbind py_contains]; try discriminate.
  - destruct (str_contains "errors" s); discriminate.
  - destruct (existsb (str_eq_value "errors") items); discriminate.
  - unfold dict_mem, py_getitem, py_get.
    destruct (dict_get "errors" reply) as [errs |] eqn:He; cbn [rbind];
      [discriminate |].
    intros Hv. exists reply. repeat split; try assumption.
    destruct (dict_get "data" reply); now injection Hv as <-.
Qed.

Lemma graphql_query_returns_object_data_witness :
  exists reply,
    body (posts_server
            (graphql_post lesswrong_url "query { posts { _id } }" JNull []))
    = Some (JObj reply)
    /\ dict_get "errors" reply = None
    /\ ~ (400 <= status_code
                   (posts_server
                      (graphql_post lesswrong_url "query { posts { _id } }"
                                    JNull []))
          < 600)
    /\ posts_reply = match dict_get "data" reply with
                     | Some data => data
                     | None => JObj []
                     end.
Proof.
  apply (graphql_query_returns_object_data
           posts_server "query { posts { _id } }" JNull "lesswrong"
           fresh_world lesswrong_url posts_reply);
    reflexivity.
Defined.

(** X11. The status is checked before the body is read: a reply with a
    status of 400 to 599 raises [HTTPError] with that status after the one
    POST, whatever its body holds. *)
Theorem http_error_before_body
        (server : request -> response) (query : string) (variables : value)
        (forum : string) (w : world) (url : string) :
  get_forum_url forum = Ok url ->
  let req := graphql_post url query variables [] in
  400 <= status_code (server req) < 600 ->
  graphql_query server query variables forum w
  = (Raise (HTTPError (status_code (server req))), after_post w req).
Proof.
  intros Hurl req [Hlo Hhi].
  rewrite (graphql_query_steps server query variables forum w url Hurl).
  cbv zeta. fold req. unfold query_result, raise_for_status.
  apply Z.leb_le in Hlo. apply Z.ltb_lt in Hhi.
  now rewrite Hlo, Hhi.
Qed.

Lemma http_error_before_body_witness :
  graphql_query forbidden_server "query { posts { _id } }" JNull "lw"
                fresh_world
  = (Raise (HTTPError 403),
     after_post fresh_world
       (graphql_post lesswrong_url "query { posts { _id } }" JNull [])).
Proof.
  apply (http_error_before_body forbidden_server "query { posts { _id } }"
           JNull "lw" fresh_world lesswrong_url).
  - reflexivity.
  - unfold forbidden_server, const_server. cbn [status_code]. lia.
Defined.

(** ** Authenticated operations *)

(** X12. A token travels with its account: after a save under one name, an
    authenticated query for any name that folds to the same key sends one
    POST to that forum's own URL, the saved token going along as the
    [loginToken] cookie, and reads the reply as [graphql_query] does. *)
Theorem saved_token_is_sent_as_cookie
        (server : request -> response)
        (f1 f2 : string) (token : value) (w : world)
        (config auth : dict) (k1 k2 : string)
        (query : string) (variables : value) (url2 : string) :
  load_config w = (Ok (JObj config), w) ->
  auth_of config = Some auth ->
  resolve_forum f1 = Ok k1 -> resolve_forum f2 = Ok k2 ->
  fold_key k1 = fold_key k2 ->
  truthy token = true ->
  get_forum_url f2 = Ok url2 ->
  let w1 := snd (save_auth_token f1 token w) in
  let req := graphql_post url2 query variables [("loginToken", token)] in
  graphql_query_authenticated server query variables f2 w1
  = (query_result (server req), after_post w1 req).
Proof.
  intros Hload Hauth H1 H2 Hfold Htruthy Hurl w1 req.
  destruct (save_then_get f1 f2 token w config auth k1 k2
              Hload Hauth H1 H2 Hfold) as (w' & Hsave & Hget).
  assert (Hw : w1 = w') by (subst w1; now rewrite Hsave).
  rewrite <- Hw in Hget.
  exact (graphql_query_authenticated_steps server query variables f2 w1
           token url2 Hget Htruthy Hurl).
Qed.

Lemma saved_token_is_sent_as_cookie_witness :
  sent (snd (graphql_query_authenticated
               (const_server 200 (Some (JObj empty_reply)))
               "query { currentUser { _id } }" JNull "af"
               (snd (save_auth_token "lw" (JStr "s3cret") fresh_world))))
  = [ {| req_url := "https://www.alignmentforum.org/graphql";
         req_json := JObj [("query", JStr "query { currentUser { _id } }")];
         req_headers := [("Content-Type", "application/json")];
         req_cookies := [("loginToken", JStr "s3cret")] |} ].
Proof.
  rewrite (saved_token_is_sent_as_cookie
             (const_server 200 (Some (JObj empty_reply)))
             "lw" "af" (JStr "s3cret") fresh_world default_config []
             "lesswrong" "alignmentforum"
             "query { currentUser { _id } }" JNull
             "https://www.alignmentforum.org/graphql"
             eq_refl eq_refl eq_refl eq_refl eq_refl eq_refl eq_refl).
  reflexivity.
Defined.

(** X13. An operation that needs a login stops without one: when the
    lookup gives no token, or an empty one, [create_draft_post] and
    [get_my_drafts] raise the "No auth token configured" error and the
    world, with its log of requests, is as it was. *)
Theorem authenticated_operations_need_token
        (server : request -> response) (forum : string) (w : world)
        (token : value) :
  get_auth_token forum w = (Ok token, w) ->
  truthy token = false ->
  (forall title contents_markdown url question,
      create_draft_post server title contents_markdown forum url question w
      = (Raise (Exception_ (no_token_message forum)), w))
  /\ (forall limit,
         get_my_drafts server limit forum w
         = (Raise (Exception_ (no_token_message forum)), w)).
Proof.
  intros Htok Hfalsy.
  assert (Hq : forall query variables,
             graphql_query_authenticated server query variables forum w
             = (Raise (Exception_ (no_token_message forum)), w)).
  { intros query variables.
    unfold graphql_query_authenticated. unfold bind at 1.
    rewrite Htok, Hfalsy. reflexivity. }
  split.
  - intros title contents_markdown url question.
    unfold create_draft_post, bind, lift, ret.
    destruct (truthy url), (truthy question);
      cbn [py_setitem2 py_getitem py_setitem dict_get dict_set rbind
           String.eqb Ascii.eqb Bool.eqb];
      now rewrite Hq.
  - intros limit. unfold get_my_drafts, bind. now rewrite Hq.
Qed.

Lemma authenticated_operations_need_token_witness :
  get_my_drafts (const_server 200 (Some (JObj empty_reply))) (JNum 50) "ea"
                lw_world
  = (Raise (Exception_
       "No auth token configured for ea. See 'set-token' command or add token to config.json."),
     lw_world).
Proof.
  destruct (authenticated_operations_need_token
              (const_server 200 (Some (JObj empty_reply))) "ea" lw_world
              JNull eq_refl eq_refl) as [_ H].
  apply H.
Defined.

(** X14. The optional fields of a draft are sent only when they are given:
    the [data] object holds [url] exactly when the URL is truthy (an empty
    string is left out) and [question: true] exactly when the flag is; a
    false [question] is never sent. *)
Theorem create_draft_optional_fields
        (server : request -> response)
        (title contents_markdown : value) (forum : string)
        (url question : value) (w : world) (token : value)
        (forum_url : string) :
  get_auth_token forum w = (Ok token, w) ->
  truthy token = true ->
  get_forum_url forum = Ok forum_url ->
  exists data,
    sent (snd (create_draft_post server title contents_markdown forum
                                 url question w))
    = (sent w ++
       [graphql_post forum_url CreatePost_query (JObj [("data", JObj data)])
                     [("loginToken", token)]])%list
    /\ dict_get "url" data = (if truthy url then Some url else None)
    /\ dict_get "question" data
       = (if truthy question then Some (JBool true) else None)
    /\ map fst data
       = (["title"; "contents"; "draft"; "submitToFrontpage"]
          ++ (if truthy url then ["url"] else [])
          ++ (if truthy question then ["question"] else []))%list.
Proof.
  intros Htok Htruthy Hurl.
  exists (draft_data title contents_markdown url question).
  rewrite (create_draft_post_steps server title contents_markdown forum
             url question w token forum_url Htok Htruthy Hurl).
  split; [reflexivity |].
  unfold draft_data.
  destruct (truthy url), (truthy question); repeat split.
Qed.

Lemma create_draft_optional_fields_witness :
  exists data,
    sent (snd (create_draft_post (const_server 200 (Some (JObj empty_reply)))
                                 (JStr "T") (JStr "C") "lw"
                                 (JStr "") (JBool true) lw_world))
    = [graphql_post lesswrong_url CreatePost_query
                    (JObj [("data", JObj data)])
                    [("loginToken", JStr "s3cret")]]
    /\ dict_get "url" data = None
    /\ dict_get "question" data = Some (JBool true)
    /\ map fst data
       = ["title"; "contents"; "draft"; "submitToFrontpage"; "question"].
Proof.
  apply (create_draft_optional_fields
           (const_server 200 (Some (JObj empty_reply)))
           (JStr "T") (JStr "C") "lw" (JStr "") (JBool true) lw_world
           (JStr "s3cret") lesswrong_url);
    reflexivity.
Defined.

(** ** Post lookup, further *)

Lemma str_app_nil_r (s : string) : s ++ "" = s.
Proof. induction s as [| c s IH]; simpl; [reflexivity | now rewrite IH]. Qed.

Lemma substring_app_head (a b : string) :
  substring 0 (String.length a) (a ++ b) = a.
Proof.
  induction a as [| c a IH]; simpl; [now destruct b | now rewrite IH].
Qed.

Lemma substring_app_tail (a b : string) :
  substring (String.length a) (String.length (a ++ b) - String.length a)
            (a ++ b) = b.
Proof.
  induction a as [| c a IH]; simpl.
  - rewrite Nat.sub_0_r. apply substring_all.
  - exact IH.
Qed.

Lemma substring_head_length (n : nat) (s : string) :
  String.length (substring 0 n s) = n -> (n <= String.length s)%nat.
Proof.
  revert s. induction n as [| n IH]; intros s H; [lia |].
  destruct s as [| c s]; simpl in *; [discriminate |].
  injection H as H. apply IH in H. lia.
Qed.

Lemma substring_split (n : nat) (s : string) :
  (n <= String.length s)%nat ->
  substring 0 n s ++ substring n (String.length s - n) s = s.
Proof.
  revert s. induction n as [| n IH]; intros s H.
  - rewrite Nat.sub_0_r, substring_all. now destruct s.
  - destruct s as [| c s]; simpl in *; [lia |].
    rewrite IH by lia. reflexivity.
Qed.

(** X15. The ID test accepts exactly the strings of seventeen letters and
    digits and those strings followed by one line feed. *)
Theorem re_match_post_id_iff (s : string) :
  re_match_post_id s = true <->
  exists id,
    String.length id = 17%nat /\ all_alnum id = true
    /\ (s = id \/ s = id ++ newline).
Proof.
  unfold re_match_post_id. split.
  - intros H. apply andb_true_iff in H. destruct H as [H Htail].
    apply andb_true_iff in H. destruct H as [Hlen Hal].
    apply Nat.eqb_eq in Hlen.
    pose proof (substring_split 17 s (substring_head_length 17 s Hlen))
      as Hsplit.
    exists (substring 0 17 s). repeat split; try assumption.
    apply orb_true_iff in Htail.
    destruct Htail as [Ht | Ht]; apply String.eqb_eq in Ht;
      rewrite Ht in Hsplit.
    + left. now rewrite str_app_nil_r in Hsplit.
    + right. now symmetry.
  - intros (id & Hlen & Hal & Hs).
    assert (Ht : exists t, s = id ++ t /\ (t = "" \/ t = newline)).
    { destruct Hs as [-> | ->].
      - exists "". now rewrite str_app_nil_r; auto.
      - exists newline. auto. }
    destruct Ht as (t & -> & Ht).
    rewrite <- Hlen. rewrite substring_app_head, substring_app_tail.
    rewrite Hlen, Hal. cbn [Nat.eqb andb].
    destruct Ht as [-> | ->]; reflexivity.
Qed.

Lemma re_search_posts_id_complete (pre id rest : string) :
  id <> "" -> all_alnum id = true ->
  re_search_posts_id (pre ++ "/posts/" ++ id ++ "/" ++ rest) <> None.
Proof.
  intros Hne Hal. induction pre as [| c pre IH].
  - change ("" ++ "/posts/" ++ id ++ "/" ++ rest)
      with ("/posts/" ++ id ++ "/" ++ rest).
    rewrite re_search_posts_id_eq, (match_posts_at_here id rest Hne Hal).
    discriminate.
  - rewrite re_search_posts_id_eq.
    destruct (match_posts_at _); [discriminate |].
    change (String c pre ++ "/posts/" ++ id ++ "/" ++ rest)
      with (String c (pre ++ "/posts/" ++ id ++ "/" ++ rest)).
    cbv iota. exact IH.
Qed.

(** X16. The URL pattern finds a post ID exactly when the identifier holds
    a segment "/posts/<id>/" whose [<id>] is a non-empty run of letters and
    digits, and what it extracts is such a run of the identifier. *)
Theorem re_search_posts_id_iff (s : string) :
  (re_search_posts_id s <> None <->
   exists pre id rest,
     s = pre ++ "/posts/" ++ id ++ "/" ++ rest
     /\ id <> "" /\ all_alnum id = true)
  /\ (forall id,
         re_search_posts_id s = Some id ->
         exists pre rest,
           s = pre ++ "/posts/" ++ id ++ "/" ++ rest
           /\ id <> "" /\ all_alnum id = true).
Proof.
  split; [split |].
  - destruct (re_search_posts_id s) as [id |] eqn:H; [| contradiction].
    intros _. apply re_search_posts_id_sound in H.
    destruct H as (pre & rest & H). now exists pre, id, rest.
  - intros (pre & id & rest & -> & Hne & Hal).
    now apply re_search_posts_id_complete.
  - intros id H. now apply re_search_posts_id_sound.
Qed.

(** X17. Given a URL whose first "/posts/" opens the segment
    "/posts/<id>/", the first request is the lookup of exactly [<id>]; the
    post it finds is returned at once, and when it finds none the slug
    scan follows. *)
Theorem get_post_by_slug_url
        (server : request -> response) (forum : string) (w : world)
        (url pre id rest : string) :
  str_contains "/posts/" (pre ++ "/posts") = false ->
  id <> "" -> all_alnum id = true ->
  get_forum_url forum = Ok url ->
  let identifier := pre ++ "/posts/" ++ id ++ "/" ++ rest in
  let req := id_lookup_request url id in
  get_post_by_slug server identifier forum w =
  match id_lookup_result (server req) with
  | Raise e => (Raise e, after_post w req)
  | Ok post =>
      if truthy post then (Ok post, after_post w req)
      else (slug_scan_result identifier (server (slug_scan_request url)),
            after_post (after_post w req) (slug_scan_request url))
  end.
Proof.
  intros Hpre Hne Hal Hurl identifier req.
  apply (get_post_by_slug_id_first server identifier forum w url id);
    [| exact Hurl].
  left. now apply re_search_posts_id_exact.
Qed.

Lemma get_post_by_slug_url_witness :
  get_post_by_slug
    (const_server 200
       (Some (JObj [("data",
                     JObj [("post", JObj [("result", post_summary)])])])))
    "https://www.lesswrong.com/posts/pT75MFsLJArrBGkaF/simple-summary"
    "lw" fresh_world
  = (Ok post_summary,
     after_post fresh_world
       (id_lookup_request lesswrong_url "pT75MFsLJArrBGkaF")).
Proof.
  etransitivity.
  - apply (get_post_by_slug_url
             (const_server 200
                (Some (JObj [("data",
                              JObj [("post",
                                     JObj [("result", post_summary)])])])))
             "lw" fresh_world lesswrong_url
             "https://www.lesswrong.com" "pT75MFsLJArrBGkaF"
             "simple-summary").
    + reflexivity.
    + discriminate.
    + reflexivity.
    + reflexivity.
  - reflexivity.
Defined.

Lemma split_char_alnum (s : string) :
  all_alnum s = true -> split_char "/" s = [s].
Proof.
  induction s as [| c s IH]; intros H; [reflexivity |].
  simpl in H. apply andb_true_iff in H. destruct H as [Hc Hs].
  cbn [split_char].
  destruct (Ascii.eqb c "/") eqn:E.
  - apply Ascii.eqb_eq in E. subst c. discriminate Hc.
  - now rewrite (IH Hs).
Qed.

(** X18. An identifier of seventeen letters and digits is looked up as an
    ID first, under that very string; the post found is returned at once,
    and when none is found the slug scan follows with the identifier as
    the slug. *)
Theorem get_post_by_slug_raw_id
        (server : request -> response) (identifier forum : string)
        (w : world) (url : string) :
  String.length identifier = 17%nat ->
  all_alnum identifier = true ->
  get_forum_url forum = Ok url ->
  let req := id_lookup_request url identifier in
  last (split_char "/" identifier) "" = identifier
  /\ get_post_by_slug server identifier forum w =
     match id_lookup_result (server req) with
     | Raise e => (Raise e, after_post w req)
     | Ok post =>
         if truthy post then (Ok post, after_post w req)
         else (slug_scan_result identifier (server (slug_scan_request url)),
               after_post (after_post w req) (slug_scan_request url))
     end.
Proof.
  intros Hlen Hal Hurl req. split.
  - now rewrite split_char_alnum.
  - apply (get_post_by_slug_id_first server identifier forum w url identifier);
      [| exact Hurl].
    right. repeat split.
    + now apply all_alnum_no_match.
    + now apply re_match_post_id_17.
Qed.

Lemma get_post_by_slug_raw_id_witness :
  fst (get_post_by_slug (const_server 200 (Some (JObj empty_reply)))
                        "pT75MFsLJArrBGkaF" "lw" fresh_world)
  = Raise (Exception_ "Post not found: pT75MFsLJArrBGkaF")
  /\ sent (snd (get_post_by_slug (const_server 200 (Some (JObj empty_reply)))
                                 "pT75MFsLJArrBGkaF" "lw" fresh_world))
     = [id_lookup_request lesswrong_url "pT75MFsLJArrBGkaF";
        slug_scan_request lesswrong_url].
Proof.
  destruct (get_post_by_slug_raw_id
              (const_server 200 (Some (JObj empty_reply)))
              "pT75MFsLJArrBGkaF" "lw" fresh_world lesswrong_url
              eq_refl eq_refl eq_refl) as [_ E].
  rewrite E. split; reflexivity.
Defined.

(** X19. An identifier that is neither a URL with a post segment nor an ID
    is looked up by slug alone: one request fetches up to 1000 posts, the
    first one whose slug equals the last path segment of the identifier is
    returned, and "Post not found" is raised when there is none. *)
Theorem get_post_by_slug_plain_slug
        (server : request -> response) (identifier forum : string)
        (w : world) (url : string) (data : value) (posts : list value) :
  re_search_posts_id identifier = None ->
  re_match_post_id identifier = false ->
  get_forum_url forum = Ok url ->
  query_result (server (slug_scan_request url)) = Ok data ->
  results_of "posts" data = Ok (JArr posts) ->
  Forall is_dict posts ->
  let slug := last (split_char "/" identifier) "" in
  get_post_by_slug server identifier forum w =
  (match find (post_slug_is slug) posts with
   | Some post => Ok post
   | None => Raise (Exception_ ("Post not found: " ++ identifier))
   end, after_post w (slug_scan_request url))
  /\ (forall post,
         fst (get_post_by_slug server identifier forum w) = Ok post ->
         In post posts /\ post_slug_is slug post = true).
Proof.
  intros Hs Hm Hurl Hq Hres Hd slug.
  assert (E : get_post_by_slug server identifier forum w =
              (match find (post_slug_is slug) posts with
               | Some post => Ok post
               | None => Raise (Exception_ ("Post not found: " ++ identifier))
               end, after_post w (slug_scan_request url))).
  { rewrite (get_post_by_slug_scan server identifier forum w url Hs Hm Hurl).
    now rewrite (slug_scan_result_find identifier _ data posts Hq Hres Hd). }
  split; [exact E |].
  intros post. rewrite E. cbn [fst].
  destruct (find (post_slug_is slug) posts) as [p |] eqn:Hf;
    [| discriminate].
  intros [= <-]. now apply find_some in Hf.
Qed.

Lemma get_post_by_slug_plain_slug_witness :
  get_post_by_slug slugs_server "simple-summary" "lw" fresh_world
  = (Ok post_summary, after_post fresh_world (slug_scan_request lesswrong_url))
  /\ get_post_by_slug slugs_server "no-such-post" "lw" fresh_world
     = (Raise (Exception_ "Post not found: no-such-post"),
        after_post fresh_world (slug_scan_request lesswrong_url)).
Proof.
  assert (Hd : Forall is_dict [post_tutorial; post_summary])
    by (repeat constructor).
  split.
  - apply (get_post_by_slug_plain_slug slugs_server "simple-summary" "lw"
             fresh_world lesswrong_url slugs_reply
             [post_tutorial; post_summary]
             eq_refl eq_refl eq_refl eq_refl eq_refl Hd).
  - apply (get_post_by_slug_plain_slug slugs_server "no-such-post" "lw"
             fresh_world lesswrong_url slugs_reply
             [post_tutorial; post_summary]
             eq_refl eq_refl eq_refl eq_refl eq_refl Hd).
Defined.

(** ** Users and tags *)

(** X20. [get_user_by_slug] sends one request and never returns an empty
    answer: a [result] that is missing, null or an empty object raises
    "User not found" with the slug as it was given, and any other result
    is returned as it is. *)
Theorem get_user_by_slug_outcome
        (server : request -> response) (slug forum : string) (w : world)
        (url : string) :
  get_forum_url forum = Ok url ->
  let req := user_request url slug in
  get_user_by_slug server slug forum w =
  (match user_lookup_result (server req) with
   | Ok user =>
       if truthy user then Ok user
       else Raise (Exception_ ("User not found: " ++ slug))
   | Raise e => Raise e
   end, after_post w req)
  /\ (forall user,
         fst (get_user_by_slug server slug forum w) = Ok user ->
         truthy user = true).
Proof.
  intros Hurl req.
  assert (E : get_user_by_slug server slug forum w =
              (match user_lookup_result (server req) with
               | Ok user =>
                   if truthy user then Ok user
                   else Raise (Exception_ ("User not found: " ++ slug))
               | Raise e => Raise e
               end, after_post w req)).
  { unfold get_user_by_slug. unfold bind at 1.
    rewrite (graphql_query_steps server GetUser_query
               (JObj [("slug", JStr slug)]) forum w url Hurl).
    cbv zeta. fold (user_request url slug). fold req.
    unfold user_lookup_result, bind, lift, ret, raise.
    destruct (query_result (server req)) as [data |]; cbn [rbind];
      [| reflexivity].
    destruct (py_get "user" (JObj []) data) as [user_ |]; cbn [rbind];
      [| reflexivity].
    destruct (py_get "result" JNull user_) as [user |]; [| reflexivity].
    now destruct (truthy user). }
  split; [exact E |].
  intros user. rewrite E. cbn [fst].
  destruct (user_lookup_result (server req)) as [u |]; [| discriminate].
  destruct (truthy u) eqn:Ht; [| discriminate].
  now intros [= <-].
Qed.

Lemma get_user_by_slug_outcome_witness :
  get_user_by_slug user_server "daniel-kokotajlo" "lw" fresh_world
  = (Ok user_daniel,
     after_post fresh_world (user_request lesswrong_url "daniel-kokotajlo"))
  /\ get_user_by_slug (const_server 200 (Some (JObj empty_reply)))
                      "nobody" "lw" fresh_world
     = (Raise (Exception_ "User not found: nobody"),
        after_post fresh_world (user_request lesswrong_url "nobody")).
Proof.
  split.
  - apply (get_user_by_slug_outcome user_server "daniel-kokotajlo" "lw"
             fresh_world lesswrong_url eq_refl).
  - apply (get_user_by_slug_outcome
             (const_server 200 (Some (JObj empty_reply))) "nobody" "lw"
             fresh_world lesswrong_url eq_refl).
Defined.

Lemma tag_slug_matches_readable (slug_lower : string) (tag : value) :
  slug_readable tag ->
  tag_slug_matches slug_lower tag = Ok (tag_slug_is slug_lower tag).
Proof.
  destruct tag; try contradiction.
  unfold slug_readable, tag_slug_matches, tag_slug_is, py_get.
  destruct (dict_get "slug" fields) as [[] |]; try contradiction;
    reflexivity.
Qed.

(** X21. [get_tag_by_slug] compares slugs without regard to letter case:
    of up to 500 tags fetched in one request it returns the first whose
    slug, lower-cased, is the lower-cased argument, and raises "Tag/topic
    not found" when there is none; two spellings of a slug that differ
    only in case find the same tag. *)
Theorem get_tag_by_slug_outcome
        (server : request -> response) (slug forum : string) (w : world)
        (url : string) (data : value) (tags : list value) :
  get_forum_url forum = Ok url ->
  query_result (server (tags_request url)) = Ok data ->
  results_of "tags" data = Ok (JArr tags) ->
  Forall slug_readable tags ->
  get_tag_by_slug server slug forum w =
  (match find (tag_slug_is (lower slug)) tags with
   | Some tag => Ok tag
   | None => Raise (Exception_ ("Tag/topic not found: " ++ slug))
   end, after_post w (tags_request url))
  /\ (forall slug' tag,
         lower slug' = lower slug ->
         fst (get_tag_by_slug server slug forum w) = Ok tag ->
         fst (get_tag_by_slug server slug' forum w) = Ok tag).
Proof.
  intros Hurl Hq Hres Hr.
  assert (E : forall s,
             get_tag_by_slug server s forum w =
             (match find (tag_slug_is (lower s)) tags with
              | Some tag => Ok tag
              | None => Raise (Exception_ ("Tag/topic not found: " ++ s))
              end, after_post w (tags_request url))).
  { intros s. unfold get_tag_by_slug. unfold bind at 1.
    rewrite (graphql_query_steps server GetTags_query
               (JObj [("limit", JNum 500)]) forum w url Hurl).
    cbv zeta. fold (tags_request url). rewrite Hq.
    unfold results_of in Hres. unfold bind, lift, ret, raise.
    destruct (py_get "tags" (JObj []) data) as [inner |];
      cbn [rbind] in Hres; [| discriminate Hres].
    rewrite Hres. cbn [py_iter].
    rewrite (find_r_find _ (tag_slug_is (lower s))).
    - now destruct (find (tag_slug_is (lower s)) tags).
    - eapply Forall_impl; [| exact Hr].
      intros t Ht. now apply tag_slug_matches_readable. }
  split; [apply E |].
  intros slug' tag Hlow. rewrite !E, Hlow. cbn [fst].
  now destruct (find (tag_slug_is (lower slug)) tags).
Qed.

Lemma get_tag_by_slug_outcome_witness :
  get_tag_by_slug tags_server "AI-Alignment" "lw" fresh_world
  = (Ok tag_ai_alignment, after_post fresh_world (tags_request lesswrong_url)).
Proof.
  assert (Hr : Forall slug_readable [tag_ai_alignment; tag_epistemology])
    by (repeat constructor).
  apply (get_tag_by_slug_outcome tags_server "AI-Alignment" "lw" fresh_world
           lesswrong_url tags_reply [tag_ai_alignment; tag_epistemology]
           eq_refl eq_refl eq_refl Hr).
Defined.

(** ** Limits, cutoffs and missing fields *)

Lemma slice_to_length {A} (limit : Z) (l : list A) :
  List.length (slice_to limit l)
  = if (0 <=? limit)%Z then Nat.min (Z.to_nat limit) (List.length l)
    else (List.length l - Z.to_nat (- limit))%nat.
Proof.
  unfold slice_to. destruct (0 <=? limit)%Z eqn:E.
  - apply length_firstn.
  - apply Z.leb_gt in E. rewrite length_firstn. lia.
Qed.

(** X22. The limit of [search_tags] is a Python slice bound: for any limit
    the result is a prefix of the matching tags, never longer than a limit
    that is not negative, while a negative limit drops that many matches
    from the end instead; a limit of zero gives the empty list. *)
Theorem search_tags_limit
        (server : request -> response)
        (query_str : string) (limit : Z) (forum : string) (w : world)
        (data : value) (w' : world) (tags : list value) :
  graphql_query server SearchTags_query (JObj [("limit", JNum 200)]) forum w
  = (Ok data, w') ->
  results_of "tags" data = Ok (JArr tags) ->
  Forall named tags ->
  let matching := filter (name_has query_str) tags in
  exists found,
    search_tags server query_str limit forum w = (Ok found, w')
    /\ (exists dropped, matching = (found ++ dropped)%list)
    /\ (0 <= limit -> (Z.of_nat (List.length found) <= limit)%Z)
    /\ (limit < 0 ->
        List.length found
        = (List.length matching - Z.to_nat (- limit))%nat)
    /\ (limit = 0 -> found = []).
Proof.
  intros Hq Hres Hnamed matching.
  exists (slice_to limit matching).
  split; [| split; [| split; [| split]]].
  - unfold search_tags, bind. rewrite Hq.
    unfold lift, results_of in *.
    destruct (py_get "tags" (JObj []) data) as [inner |];
      cbn [rbind] in Hres; [| discriminate Hres].
    rewrite Hres. cbn [py_iter].
    rewrite (filter_r_filter _ (name_has query_str)); [reflexivity |].
    eapply Forall_impl; [| exact Hnamed].
    intros t Ht. now apply name_matches_named.
  - unfold slice_to.
    destruct (0 <=? limit)%Z;
      eexists; symmetry; apply firstn_skipn.
  - intros H. rewrite slice_to_length.
    apply Z.leb_le in H. rewrite H. lia.
  - intros H. rewrite slice_to_length.
    apply Z.leb_gt in H. now rewrite H.
  - intros ->. reflexivity.
Qed.

Lemma search_tags_limit_witness :
  exists found,
    search_tags tags_server "" (-1) "lw" fresh_world
    = (Ok found,
       after_post fresh_world
         (graphql_post lesswrong_url SearchTags_query
                       (JObj [("limit", JNum 200)]) []))
    /\ found = [tag_ai_alignment].
Proof.
  assert (H : Forall named [tag_ai_alignment; tag_epistemology]).
  { repeat constructor; eexists; reflexivity. }
  destruct (search_tags_limit tags_server "" (-1) "lw" fresh_world
              tags_reply
              (after_post fresh_world
                 (graphql_post lesswrong_url SearchTags_query
                               (JObj [("limit", JNum 200)]) []))
              [tag_ai_alignment; tag_epistemology]
              eq_refl eq_refl H) as (found & E & _).
  exists found. split; [exact E |].
  vm_compute in E. now injection E as <-.
Defined.

Lemma filter_r_raises (keep : value -> result bool) (f : value -> bool)
      (good : list value) (bad : value) (rest : list value) (e : exn) :
  Forall (fun x => keep x = Ok (f x)) good ->
  keep bad = Raise e ->
  filter_r keep (good ++ bad :: rest) = Raise e.
Proof.
  intros Hgood Hbad. induction Hgood as [| x l Hx _ IH]; simpl.
  - now rewrite Hbad.
  - now rewrite Hx, IH.
Qed.

Ltac fetch_then_raise Hq Hres Hgood Hbad :=
  unfold bind; rewrite Hq; unfold lift, results_of in *;
  match type of Hres with
  | rbind ?g _ = _ =>
      destruct g as [inner |]; cbn [rbind] in Hres; [| discriminate Hres]
  end;
  rewrite Hres; cbn [py_iter];
  erewrite filter_r_raises; [reflexivity | | exact Hbad];
  eapply Forall_impl; [| exact Hgood];
  intros item Hc; now apply posted_since_comparable.

Ltac fetch_unfiltered Hq Hres :=
  unfold bind; rewrite Hq; unfold lift, results_of in *;
  match type of Hres with
  | rbind ?g _ = _ =>
      destruct g as [inner |]; cbn [rbind] in Hres; [| discriminate Hres]
  end;
  rewrite Hres; reflexivity.

(** X23. The date filter reads [postedAt] only when a cutoff is given.
    With a cutoff, the first item without that field makes the whole call
    raise [KeyError], the items before it being lost; without a cutoff the
    same reply is returned as it came. *)
Theorem undated_item_breaks_date_filter
        (server : request -> response)
        (fromisoformat : string -> option datetime)
        (cutoff : datetime) (good : list value) (bad : dict)
        (rest : list value) :
  Forall (comparable fromisoformat cutoff) good ->
  dict_get "postedAt" bad = None ->
  let items := (good ++ JObj bad :: rest)%list in
  (forall user_id limit forum w data w',
      graphql_query server GetUserPosts_query
        (JObj [("userId", user_id); ("limit", limit)]) forum w = (Ok data, w') ->
      results_of "posts" data = Ok (JArr items) ->
      get_user_posts server fromisoformat user_id (Some cutoff) limit forum w
      = (Raise (KeyError "postedAt"), w')
      /\ get_user_posts server fromisoformat user_id None limit forum w
         = (Ok (JArr items), w'))
  /\ (forall user_id limit forum w data w',
      graphql_query server GetUserComments_query
        (JObj [("userId", user_id); ("limit", limit)]) forum w = (Ok data, w') ->
      results_of "comments" data = Ok (JArr items) ->
      get_user_comments server fromisoformat user_id (Some cutoff) limit
                        forum w
      = (Raise (KeyError "postedAt"), w')
      /\ get_user_comments server fromisoformat user_id None limit forum w
         = (Ok (JArr items), w'))
  /\ (forall tag_id limit forum w data w',
      graphql_query server GetTagPosts_query
        (JObj [("tagId", tag_id); ("limit", limit)]) forum w = (Ok data, w') ->
      results_of "posts" data = Ok (JArr items) ->
      get_posts_by_tag server fromisoformat tag_id (Some cutoff) limit forum w
      = (Raise (KeyError "postedAt"), w')
      /\ get_posts_by_tag server fromisoformat tag_id None limit forum w
         = (Ok (JArr items), w')).
Proof.
  intros Hgood Hnone items. subst items.
  assert (Hbad : posted_since fromisoformat cutoff (JObj bad)
                 = Raise (KeyError "postedAt")).
  { unfold posted_since, py_getitem. now rewrite Hnone. }
  split; [| split]; intros x limit forum w data w' Hq Hres; split.
  - unfold get_user_posts. fetch_then_raise Hq Hres Hgood Hbad.
  - unfold get_user_posts. fetch_unfiltered Hq Hres.
  - unfold get_user_comments. fetch_then_raise Hq Hres Hgood Hbad.
  - unfold get_user_comments. fetch_unfiltered Hq Hres.
  - unfold get_posts_by_tag. fetch_then_raise Hq Hres Hgood Hbad.
  - unfold get_posts_by_tag. fetch_unfiltered Hq Hres.
Qed.

Lemma undated_item_breaks_date_filter_witness :
  fst (get_user_posts undated_server iso_table (JStr "u1")
                      (Some cutoff_2024_03_10) (JNum 50) "lw" fresh_world)
  = Raise (KeyError "postedAt")
  /\ fst (get_user_posts undated_server iso_table (JStr "u1") None (JNum 50)
                         "lw" fresh_world)
     = Ok (JArr [post_after; post_undated]).
Proof.
  assert (Hgood : Forall (comparable iso_table cutoff_2024_03_10)
                         [post_after]).
  { repeat constructor. eexists. split; reflexivity. }
  destruct (undated_item_breaks_date_filter
              undated_server iso_table cutoff_2024_03_10 [post_after]
              [("_id", JStr "p4")] [] Hgood eq_refl) as (Hposts & _).
  destruct (Hposts (JStr "u1") (JNum 50) "lw" fresh_world undated_reply
              (after_post fresh_world
                 (graphql_post lesswrong_url GetUserPosts_query
                    (JObj [("userId", JStr "u1"); ("limit", JNum 50)]) []))
              eq_refl eq_refl) as [E1 E2].
  rewrite E1, E2. split; reflexivity.
Defined.

(** X24. A default stands in for a missing field, not for a null one:
    [search_posts] returns the empty list when the reply has no [posts]
    field or its [posts] has no [results], returns the [results] when
    there are some, and raises [AttributeError] when [posts] is null. *)
Theorem search_posts_missing_fields
        (server : request -> response) (query_str limit : value)
        (forum : string) (w : world) (data : dict) (w' : world) :
  graphql_query server SearchPosts_query
    (JObj [("searchQuery", query_str); ("limit", limit)]) forum w
  = (Ok (JObj data), w') ->
  search_posts server query_str limit forum w =
  (match dict_get "posts" data with
   | None => Ok (JArr [])
   | Some (JObj posts) =>
       match dict_get "results" posts with
       | Some results => Ok results
       | None => Ok (JArr [])
       end
   | Some _ => Raise AttributeError
   end, w').
Proof.
  intros Hq. unfold search_posts, bind. rewrite Hq.
  unfold lift. cbn [py_get].
  destruct (dict_get "posts" data) as [[| b | n | s | items | posts] |];
    cbn [py_get dict_get]; reflexivity.
Qed.

Lemma search_posts_missing_fields_witness :
  search_posts null_posts_server (JStr "AI safety") (JNum 20) "lw"
               fresh_world
  = (Raise AttributeError,
     after_post fresh_world
       (graphql_post lesswrong_url SearchPosts_query
          (JObj [("searchQuery", JStr "AI safety"); ("limit", JNum 20)]) []))
  /\ search_posts (const_server 200 (Some (JObj empty_reply)))
                  (JStr "AI safety") (JNum 20) "lw" fresh_world
     = (Ok (JArr []),
        after_post fresh_world
          (graphql_post lesswrong_url SearchPosts_query
             (JObj [("searchQuery", JStr "AI safety"); ("limit", JNum 20)])
             [])).
Proof.
  split.
  - apply (search_posts_missing_fields null_posts_server (JStr "AI safety")
             (JNum 20) "lw" fresh_world [("posts", JNull)]).
    reflexivity.
  - apply (search_posts_missing_fields
             (const_server 200 (Some (JObj empty_reply)))
             (JStr "AI safety") (JNum 20) "lw" fresh_world []).
    reflexivity.
Defined.

(** ** Requests and their order *)

(** X25. With a config that loads as a dict, whatever its [auth] holds, a
    forum name that does not resolve
    stops the operations that use the token store as well: the
    authenticated query, [create_draft_post], [get_my_drafts] and
    [save_auth_token] raise the resolver's error, not the missing-token
    one, and neither send a request nor write the file. *)
Theorem unknown_forum_stops_token_operations
        (server : request -> response) (forum : string) (w : world)
        (config : dict) (e : exn) :
  load_config w = (Ok (JObj config), w) ->
  resolve_forum forum = Raise e ->
  (forall query variables,
      graphql_query_authenticated server query variables forum w
      = (Raise e, w))
  /\ (forall title contents_markdown url question,
         create_draft_post server title contents_markdown forum url
                           question w
         = (Raise e, w))
  /\ (forall limit, get_my_drafts server limit forum w = (Raise e, w))
  /\ (forall token, save_auth_token forum token w = (Raise e, w)).
Proof.
  intros Hload Hres.
  assert (Hget : get_auth_token forum w = (Raise e, w)).
  { unfold get_auth_token, bind. rewrite Hload.
    unfold lift, py_get.
    destruct (dict_get "auth" config); now rewrite Hres. }
  assert (Hq : forall query variables,
             graphql_query_authenticated server query variables forum w
             = (Raise e, w)).
  { intros query variables.
    unfold graphql_query_authenticated. unfold bind at 1.
    now rewrite Hget. }
  split; [exact Hq | split; [| split]].
  - intros title contents_markdown url question.
    unfold create_draft_post, bind, lift, ret.
    destruct (truthy url), (truthy question);
      cbn [py_setitem2 py_getitem py_setitem dict_get dict_set rbind
           String.eqb Ascii.eqb Bool.eqb];
      now rewrite Hq.
  - intros limit. unfold get_my_drafts, bind. now rewrite Hq.
  - intros token. unfold save_auth_token, bind. rewrite Hload.
    unfold lift, ret, py_contains, dict_mem.
    destruct (dict_get "auth" config);
      cbn [negb py_setitem]; now rewrite Hres.
Qed.

Lemma unknown_forum_stops_token_operations_witness :
  save_auth_token "reddit" (JStr "s3cret") lw_world
  = (Raise (ValueError (unknown_forum_message "reddit")), lw_world)
  /\ get_my_drafts (const_server 200 (Some (JObj empty_reply))) (JNum 50)
                   "reddit" lw_world
     = (Raise (ValueError (unknown_forum_message "reddit")), lw_world).
Proof.
  destruct (unknown_forum_stops_token_operations
              (const_server 200 (Some (JObj empty_reply))) "reddit" lw_world
              [("auth", JObj [("lesswrong", JStr "s3cret")])]
              (ValueError (unknown_forum_message "reddit"))
              eq_refl eq_refl) as (_ & _ & Hdrafts & Hsave).
  split; [apply Hsave | apply Hdrafts].
Defined.

(** X26. A save keeps the layout of the config: the top-level keys stay in
    their order, a missing [auth] key going last, and so do the keys of
    [auth], a new forum key going last. *)
Theorem save_auth_token_key_order
        (forum : string) (token : value) (w : world)
        (config auth : dict) (key : string) :
  load_config w = (Ok (JObj config), w) ->
  auth_of config = Some auth ->
  resolve_forum forum = Ok key ->
  exists config' auth',
    config_file (snd (save_auth_token forum token w))
    = JsonFile (JObj config')
    /\ dict_get "auth" config' = Some (JObj auth')
    /\ map fst config'
       = (if dict_mem "auth" config then map fst config
          else (map fst config ++ ["auth"])%list)
    /\ map fst auth'
       = (if dict_mem (fold_key key) auth then map fst auth
          else (map fst auth ++ [fold_key key])%list).
Proof.
  intros Hload Hauth Hres.
  rewrite (save_auth_token_writes forum token w config auth key
             Hload Hauth Hres).
  do 2 eexists. split; [reflexivity |]. split; [apply dict_get_set_same |].
  split; apply dict_set_keys.
Qed.

Lemma save_auth_token_key_order_witness :
  config_file (snd (save_auth_token "lw" (JStr "s3cret") ea_world))
  = JsonFile
      (JObj [("subscriptions", JArr [JStr "daniel-kokotajlo"]);
             ("auth", JObj [("eaforum", JStr "ea-token");
                            ("lesswrong", JStr "s3cret")]);
             ("digest_days", JNum 14)]).
Proof.
  destruct (save_auth_token_key_order "lw" (JStr "s3cret") ea_world
              ea_config [("eaforum", JStr "ea-token")] "lesswrong"
              eq_refl eq_refl eq_refl) as (config' & auth' & E & _).
  rewrite E. vm_compute in E. now injection E as <-.
Defined.

(** X27. For a forum that resolves, [graphql_query] sends exactly one POST
    whatever the reply, to that forum's URL, with the JSON content type
    and no cookie; its body holds the query and, only when they are
    truthy, the variables (an empty mapping is left out). *)
Theorem graphql_query_sends_one_post
        (server : request -> response) (query : string) (variables : value)
        (forum : string) (w : world) (url : string) :
  get_forum_url forum = Ok url ->
  sent (snd (graphql_query server query variables forum w))
  = (sent w ++
     [ {| req_url := url;
          req_json :=
            JObj (("query", JStr query)
                  :: if truthy variables then [("variables", variables)]
                     else []);
          req_headers := [("Content-Type", "application/json")];
          req_cookies := [] |} ])%list
  /\ config_file (snd (graphql_query server query variables forum w))
     = config_file w.
Proof.
  intros Hurl.
  rewrite (graphql_query_steps server query variables forum w url Hurl).
  split; reflexivity.
Qed.

Lemma graphql_query_sends_one_post_witness :
  sent (snd (graphql_query forbidden_server "query { posts { _id } }"
                           (JObj []) "ea" fresh_world))
  = [ {| req_url := "https://forum.effectivealtruism.org/graphql";
         req_json := JObj [("query", JStr "query { posts { _id } }")];
         req_headers := [("Content-Type", "application/json")];
         req_cookies := [] |} ].
Proof.
  apply (graphql_query_sends_one_post forbidden_server
           "query { posts { _id } }" (JObj []) "ea" fresh_world
           "https://forum.effectivealtruism.org/graphql").
  reflexivity.
Defined.

(** X28. For a forum that resolves, [get_post_by_slug] sends one or two
    requests for any identifier: the slug scan alone, or an ID lookup
    alone, or an ID lookup followed by the slug scan; never the scan
    before the lookup, and never a third request. *)
Theorem get_post_by_slug_requests
        (server : request -> response) (identifier forum : string)
        (w : world) (url : string) :
  get_forum_url forum = Ok url ->
  exists requests,
    sent (snd (get_post_by_slug server identifier forum w))
    = (sent w ++ requests)%list
    /\ (requests = [slug_scan_request url]
        \/ exists post_id,
             requests = [id_lookup_request url post_id]
             \/ requests = [id_lookup_request url post_id;
                            slug_scan_request url]).
Proof.
  intros Hurl.
  assert (Hid : forall post_id,
             re_search_posts_id identifier = Some post_id
             \/ (re_search_posts_id identifier = None
                 /\ re_match_post_id identifier = true
                 /\ post_id = identifier) ->
             exists requests,
               sent (snd (get_post_by_slug server identifier forum w))
               = (sent w ++ requests)%list
               /\ (requests = [slug_scan_request url]
                   \/ exists id,
                        requests = [id_lookup_request url id]
                        \/ requests = [id_lookup_request url id;
                                       slug_scan_request url])).
  { intros post_id Hcase.
    rewrite (get_post_by_slug_id_first server identifier forum w url post_id
               Hcase Hurl).
    cbv zeta.
    destruct (id_lookup_result _) as [post |];
      [destruct (truthy post) |]; cbn [snd after_post sent].
    - exists [id_lookup_request url post_id]. split; [reflexivity |].
      right. exists post_id. now left.
    - exists [id_lookup_request url post_id; slug_scan_request url].
      split; [now rewrite <- app_assoc |].
      right. exists post_id. now right.
    - exists [id_lookup_request url post_id]. split; [reflexivity |].
      right. exists post_id. now left. }
  destruct (re_search_posts_id identifier) as [post_id |] eqn:Hs.
  - apply (Hid post_id). now left.
  - destruct (re_match_post_id identifier) eqn:Hm.
    + apply (Hid identifier). right. now repeat split.
    + rewrite (get_post_by_slug_scan server identifier forum w url Hs Hm Hurl).
      exists [slug_scan_request url]. split; [reflexivity | now left].
Qed.

Lemma get_post_by_slug_requests_witness :
  exists requests,
    sent (snd (get_post_by_slug slugs_server "simple-summary" "lw"
                                fresh_world))
    = requests
    /\ (requests = [slug_scan_request lesswrong_url]
        \/ exists post_id,
             requests = [id_lookup_request lesswrong_url post_id]
             \/ requests = [id_lookup_request lesswrong_url post_id;
                            slug_scan_request lesswrong_url]).
Proof.
  apply (get_post_by_slug_requests slugs_server "simple-summary" "lw"
           fresh_world lesswrong_url).
  reflexivity.
Defined.
